(** * telefonia-python: the phone lookup core of [api-python/tel.py]

    A shallow embedding of [PhoneValidator], [CacheManager] and
    [PhoneLookup], and the properties of normalisation, classification,
    carrier resolution and the TTL cache.

    Modelling conventions.
    - A Python [str] is modelled in two steps.  A [string] is a [str]
      whose characters are all code points below 256.  On that range the
      regex class [\d] is exactly ['0'..'9'] and [\D] its complement, and
      [encode] cannot fail; [PhoneValidator], [CacheManager] and
      [PhoneLookup] are first written on such strings.  A [Str.t] is a
      [str] that may also hold lone surrogates (U+D800 to U+DFFF), which
      [sys.argv] delivers for bytes that are not UTF-8 and which [encode]
      refuses; module [Str] gives [encode], [get_key], [load], [save],
      [normalize], [validate] and [lookup] on them, with the exception
      that [encode] raises.  Literals with accents are written with
      [latin1], which reads the UTF-8 bytes of the literal back into code
      points.
    - [time.time()] readings are rationals; [int(...)] of a reading
      truncates towards zero.
    - The cache directory is a finite map from the hex digest (the file
      stem) to the record snapshot held by the JSON file; the file system
      is taken to be reliable.
    - A raised exception is a value of [exn] in the [Res] monad. *)

From Stdlib Require Import ZArith NArith QArith Lqa Lia Bool List Ascii String.
From Stdlib Require Import Decimal DecimalString.
From stdpp Require Import gmap strings.
Import ListNotations.

Local Open Scope string_scope.

(** ** Python string primitives *)

Module Py.

(** [\d] on code points below 256. *)
Definition isdigit (c : ascii) : bool :=
  ((48 <=? N_of_ascii c) && (N_of_ascii c <=? 57))%N.

(** [re.sub(r'\D', '', s)] *)
Fixpoint sub_nondigits (s : string) : string :=
  match s with
  | EmptyString => EmptyString
  | String c r => if isdigit c then String c (sub_nondigits r) else sub_nondigits r
  end.

(** [s[n:]] *)
Fixpoint drop (n : nat) (s : string) : string :=
  match n, s with
  | O, _ => s
  | S _, EmptyString => EmptyString
  | S m, String _ r => drop m r
  end.

(** [s[:n]] *)
Fixpoint take (n : nat) (s : string) : string :=
  match n, s with
  | O, _ => EmptyString
  | S _, EmptyString => EmptyString
  | S m, String c r => String c (take m r)
  end.

(** [s[i] == c], for an index the caller has checked to be in range. *)
Definition char_is (s : string) (i : nat) (c : ascii) : bool :=
  match String.get i s with
  | Some d => Ascii.eqb d c
  | None => false
  end.

(** [s.startswith(p)] *)
Definition startswith (s p : string) : bool := String.prefix p s.

(** [c in s] for a one-character [c]. *)
Fixpoint contains (c : ascii) (s : string) : bool :=
  match s with
  | EmptyString => false
  | String d r => Ascii.eqb d c || contains c r
  end.

(** [s.split(c)]: the pieces between the occurrences of [c]. *)
Fixpoint split (c : ascii) (s : string) : list string :=
  match s with
  | EmptyString => [EmptyString]
  | String d r =>
      if Ascii.eqb d c then EmptyString :: split c r
      else match split c r with
           | p :: ps => String d p :: ps
           | [] => [String d EmptyString]
           end
  end.

Definition all_digits (s : string) : bool :=
  forallb isdigit (list_ascii_of_string s).

(** Reads the UTF-8 bytes of a literal back into code points below 256. *)
Fixpoint latin1 (s : string) : string :=
  match s with
  | EmptyString => EmptyString
  | String c r =>
      match r with
      | String d r' =>
          if (N_of_ascii c =? 195)%N then
            String (ascii_of_N (N_of_ascii d + 64)) (latin1 r')
          else if (N_of_ascii c =? 194)%N then String d (latin1 r')
          else String c (latin1 r)
      | EmptyString => String c EmptyString
      end
  end.

(** [s.encode()] where every code point of [s] is below 256: the UTF-8
    bytes, one or two for a character.  Nothing is raised on these
    strings; [Str.encode] is [encode] on a [str] that may hold
    surrogates, where it raises. *)
Fixpoint encode (s : string) : list N :=
  match s with
  | EmptyString => []
  | String c r =>
      let n := N_of_ascii c in
      if (n <? 128)%N then n :: encode r
      else N.lor 192 (N.shiftr n 6) :: N.lor 128 (N.land n 63) :: encode r
  end.

(** The whitespace that [int] strips around a literal: tab to carriage
    return, space, and on code points below 256 also U+0085 and U+00A0. *)
Definition isspace (c : ascii) : bool :=
  let n := N_of_ascii c in
  (((9 <=? n) && (n <=? 13)) || (n =? 32) || (n =? 133) || (n =? 160))%N.

Fixpoint lstrip (s : string) : string :=
  match s with
  | String c r => if isspace c then lstrip r else s
  | EmptyString => EmptyString
  end.

Definition digit_val (c : ascii) : Z := Z.of_N (N_of_ascii c) - 48.

(** The digits of an integer literal after its sign: groups of digits
    joined by single underscores, then optional trailing whitespace.
    [acc] is the value read so far, [prev_digit] whether the previous
    character was a digit. *)
Fixpoint int_digits (s : string) (acc : Z) (prev_digit : bool) : option Z :=
  match s with
  | EmptyString => if prev_digit then Some acc else None
  | String c r =>
      if isdigit c then int_digits r (10 * acc + digit_val c)%Z true
      else if Ascii.eqb c "_" then
        if prev_digit then
          match r with
          | String d _ => if isdigit d then int_digits r acc false else None
          | EmptyString => None
          end
        else None
      else if isspace c then
        if prev_digit then
          match lstrip r with EmptyString => Some acc | _ => None end
        else None
      else None
  end.

(** [int(s)] in base 10; [None] stands for [ValueError]. *)
Definition int (s : string) : option Z :=
  match lstrip s with
  | String "+" r => int_digits r 0 false
  | String "-" r => option_map Z.opp (int_digits r 0 false)
  | t => int_digits t 0 false
  end.

End Py.

(** ** Exceptions and dictionaries *)

Inductive exn : Type :=
| KeyError (k : string)
| ValueError
| UnicodeEncodeError.

Inductive Res (A : Type) : Type :=
| Ok (a : A)
| Raise (e : exn).

Arguments Ok {A} a.
Arguments Raise {A} e.

Definition bind {A B : Type} (m : Res A) (f : A -> Res B) : Res B :=
  match m with
  | Ok a => f a
  | Raise e => Raise e
  end.

Notation "'let*' x ':=' m 'in' k" := (bind m (fun x => k))
  (at level 10, x name, m at level 100, k at level 200).

(** A [dict] with string keys, in insertion order. *)
Definition dict (V : Type) := list (string * V).

(** [d.get(k)] *)
Fixpoint dict_find {V : Type} (d : dict V) (k : string) : option V :=
  match d with
  | [] => None
  | (k', v) :: d' => if String.eqb k' k then Some v else dict_find d' k
  end.

(** [d[k]] *)
Definition dict_item {V : Type} (d : dict V) (k : string) : Res V :=
  match dict_find d k with
  | Some v => Ok v
  | None => Raise (KeyError k)
  end.

(** [d.get(k, default)] *)
Definition dict_get {V : Type} (d : dict V) (k : string) (default : V) : V :=
  match dict_find d k with
  | Some v => v
  | None => default
  end.

(** ** Regular expressions of [PhoneValidator.PATTERNS]

    Every pattern has the shape [^(g1)(g2)(g3)$] where a group is a
    sequence of single-character classes, possibly repeated a fixed number
    of times. *)

Module Re.

Inductive cls : Type :=
| Digit                       (* \d *)
| Lit (c : ascii)             (* a literal character *)
| Range (lo hi : ascii).      (* [lo-hi] *)

Inductive atom : Type :=
| One (k : cls)               (* k *)
| Rep (k : cls) (n : nat).    (* k{n} *)

Definition group := list atom.
Definition pattern := list group.

Definition cls_match (k : cls) (c : ascii) : bool :=
  match k with
  | Digit => Py.isdigit c
  | Lit d => Ascii.eqb c d
  | Range lo hi => ((N_of_ascii lo <=? N_of_ascii c) && (N_of_ascii c <=? N_of_ascii hi))%N
  end.

(** Consumes [n] characters of class [k]; returns them and the rest. *)
Fixpoint match_rep (k : cls) (n : nat) (s : string) : option (string * string) :=
  match n with
  | O => Some (EmptyString, s)
  | S m =>
      match s with
      | String c r =>
          if cls_match k c then
            match match_rep k m r with
            | Some (got, rest) => Some (String c got, rest)
            | None => None
            end
          else None
      | EmptyString => None
      end
  end.

Definition match_atom (a : atom) (s : string) : option (string * string) :=
  match a with
  | One k => match_rep k 1 s
  | Rep k n => match_rep k n s
  end.

Fixpoint match_group (g : group) (s : string) : option (string * string) :=
  match g with
  | [] => Some (EmptyString, s)
  | a :: g' =>
      match match_atom a s with
      | Some (got, rest) =>
          match match_group g' rest with
          | Some (got', rest') => Some (got ++ got', rest')
          | None => None
          end
      | None => None
      end
  end.

(** [$] without [re.MULTILINE]: the end of the string, or just before a
    final newline. *)
Definition at_end (s : string) : bool :=
  match s with
  | EmptyString => true
  | String c EmptyString => Ascii.eqb c "010"
  | _ => false
  end.

(** [re.match(p, s)]: the captured groups, or [None]. *)
Fixpoint re_match (p : pattern) (s : string) : option (list string) :=
  match p with
  | [] => if at_end s then Some [] else None
  | g :: p' =>
      match match_group g s with
      | Some (got, rest) =>
          match re_match p' rest with
          | Some gs => Some (got :: gs)
          | None => None
          end
      | None => None
      end
  end.

(** [m.group(i)] for [i >= 1]. *)
Definition group_of (m : list string) (i : nat) : string := nth (i - 1) m EmptyString.

Definition atom_width (a : atom) : nat :=
  match a with One _ => 1 | Rep _ n => n end.

Definition group_width (g : group) : nat := list_sum (map atom_width g).

Definition width (p : pattern) : nat := list_sum (map group_width p).

End Re.

(** ** PhoneValidator *)

Definition TIPO_MOVEL : string := Eval cbv in Py.latin1 "MÓVEL".
Definition TIPO_FIXO : string := "FIXO".
Definition FORMATO_INVALIDO : string := Eval cbv in Py.latin1 "Formato inválido".
Definition FORMATO_NAO_RECONHECIDO : string := Eval cbv in Py.latin1 "Formato não reconhecido".

Module PhoneValidator.

(** [r'^(\d{2})(9\d{4})(\d{4})$'] *)
Definition PATTERN_mobile : Re.pattern :=
  [ [Re.Rep Re.Digit 2]; [Re.One (Re.Lit "9"); Re.Rep Re.Digit 4]; [Re.Rep Re.Digit 4] ].

(** [r'^(\d{2})([2-5]\d{3})(\d{4})$'] *)
Definition PATTERN_landline : Re.pattern :=
  [ [Re.Rep Re.Digit 2]; [Re.One (Re.Range "2" "5"); Re.Rep Re.Digit 3]; [Re.Rep Re.Digit 4] ].

(** [r'^(\d{2})([2-5]\d{2})(\d{4})$'] *)
Definition PATTERN_short : Re.pattern :=
  [ [Re.Rep Re.Digit 2]; [Re.One (Re.Range "2" "5"); Re.Rep Re.Digit 2]; [Re.Rep Re.Digit 4] ].

Definition normalize (phone : string) : option string :=
  let digits := Py.sub_nondigits phone in
  let digits :=
    if (String.length digits =? 11)%nat && Py.char_is digits 0 "0"
    then Py.drop 1 digits else digits in
  if (10 <=? String.length digits)%nat && (String.length digits <=? 11)%nat
  then Some digits else None.

Definition validate (phone : string) : bool * string * dict string :=
  match normalize phone with
  | None => (false, FORMATO_INVALIDO, [])
  | Some EmptyString => (false, FORMATO_INVALIDO, [])
  | Some digits =>
      let unrecognised := (false, FORMATO_NAO_RECONHECIDO, []) in
      if (String.length digits =? 11)%nat && Py.char_is digits 2 "9" then
        match Re.re_match PATTERN_mobile digits with
        | Some m =>
            (true, TIPO_MOVEL,
             [ ("ddd", Re.group_of m 1);
               ("prefixo", Py.drop 1 (Re.group_of m 2));
               ("sufixo", Re.group_of m 3);
               ("raw_prefixo", Re.group_of m 2) ])
        | None => unrecognised
        end
      else if (String.length digits =? 11)%nat then
        match Re.re_match PATTERN_landline digits with
        | Some m =>
            (true, TIPO_FIXO,
             [ ("ddd", Re.group_of m 1);
               ("prefixo", Re.group_of m 2);
               ("sufixo", Re.group_of m 3) ])
        | None => unrecognised
        end
      else if (String.length digits =? 10)%nat then
        match Re.re_match PATTERN_short digits with
        | Some m =>
            (true, TIPO_FIXO,
             [ ("ddd", Re.group_of m 1);
               ("prefixo", Re.group_of m 2);
               ("sufixo", Re.group_of m 3) ])
        | None => unrecognised
        end
      else unrecognised
  end.

End PhoneValidator.

(** ** MD5 ([hashlib.md5], RFC 1321) over bytes held in [N] *)

Module MD5.

Local Open Scope N_scope.

Definition mask : N := 0xffffffff.

Definition add32 (x y : N) : N := N.land (x + y) mask.

Definition not32 (x : N) : N := N.lxor x mask.

Definition rotl32 (x n : N) : N :=
  N.land (N.lor (N.shiftl x n) (N.shiftr x (32 - n))) mask.

(** Per-round shift amounts. *)
Definition shifts : list N :=
  [ 7; 12; 17; 22; 7; 12; 17; 22; 7; 12; 17; 22; 7; 12; 17; 22;
    5; 9; 14; 20; 5; 9; 14; 20; 5; 9; 14; 20; 5; 9; 14; 20;
    4; 11; 16; 23; 4; 11; 16; 23; 4; 11; 16; 23; 4; 11; 16; 23;
    6; 10; 15; 21; 6; 10; 15; 21; 6; 10; 15; 21; 6; 10; 15; 21 ].

(** [K i = floor (2^32 * abs (sin (i + 1)))]. *)
Definition K : list N :=
  [
    0xd76aa478; 0xe8c7b756; 0x242070db; 0xc1bdceee;
    0xf57c0faf; 0x4787c62a; 0xa8304613; 0xfd469501;
    0x698098d8; 0x8b44f7af; 0xffff5bb1; 0x895cd7be;
    0x6b901122; 0xfd987193; 0xa679438e; 0x49b40821;
    0xf61e2562; 0xc040b340; 0x265e5a51; 0xe9b6c7aa;
    0xd62f105d; 0x02441453; 0xd8a1e681; 0xe7d3fbc8;
    0x21e1cde6; 0xc33707d6; 0xf4d50d87; 0x455a14ed;
    0xa9e3e905; 0xfcefa3f8; 0x676f02d9; 0x8d2a4c8a;
    0xfffa3942; 0x8771f681; 0x6d9d6122; 0xfde5380c;
    0xa4beea44; 0x4bdecfa9; 0xf6bb4b60; 0xbebfbc70;
    0x289b7ec6; 0xeaa127fa; 0xd4ef3085; 0x04881d05;
    0xd9d4d039; 0xe6db99e5; 0x1fa27cf8; 0xc4ac5665;
    0xf4292244; 0x432aff97; 0xab9423a7; 0xfc93a039;
    0x655b59c3; 0x8f0ccc92; 0xffeff47d; 0x85845dd1;
    0x6fa87e4f; 0xfe2ce6e0; 0xa3014314; 0x4e0811a1;
    0xf7537e82; 0xbd3af235; 0x2ad7d2bb; 0xeb86d391 ].

(** The message followed by 0x80, zeros up to 56 modulo 64, and the bit
    length as 8 little-endian bytes. *)
Definition le_bytes (count : nat) (x : N) : list N :=
  map (fun i => N.land (N.shiftr x (8 * N.of_nat i)) 0xff) (seq 0 count).

Definition pad (msg : list N) : list N :=
  let len := N.of_nat (length msg) in
  let zeros := N.to_nat ((119 - len mod 64) mod 64) in
  msg ++ [0x80] ++ repeat 0 zeros ++ le_bytes 8 (N.land (8 * len) 0xffffffffffffffff).

(** The little-endian 32-bit word [g] of a 64-byte block. *)
Definition word_of (block : list N) (g : N) : N :=
  let b := fun j => nth (N.to_nat (4 * g) + j) block 0 in
  N.lor (b 0%nat) (N.lor (N.shiftl (b 1%nat) 8)
    (N.lor (N.shiftl (b 2%nat) 16) (N.shiftl (b 3%nat) 24))).

Record state : Type := State { sA : N; sB : N; sC : N; sD : N }.

Definition init : state :=
  State 0x67452301 0xefcdab89 0x98badcfe 0x10325476.

Definition step (block : list N) (st : state) (i : N) : state :=
  let '(State a b c d) := st in
  let '(f, g) :=
    if i <? 16 then (N.lor (N.land b c) (N.land (not32 b) d), i)
    else if i <? 32 then (N.lor (N.land d b) (N.land (not32 d) c), (5 * i + 1) mod 16)
    else if i <? 48 then (N.lxor b (N.lxor c d), (3 * i + 5) mod 16)
    else (N.lxor c (N.lor b (not32 d)), (7 * i) mod 16) in
  let f := add32 (add32 (add32 f a) (nth (N.to_nat i) K 0)) (word_of block g) in
  State d (add32 b (rotl32 f (nth (N.to_nat i) shifts 0))) b c.

Definition compress (st : state) (block : list N) : state :=
  let st' := fold_left (step block) (map N.of_nat (seq 0 64)) st in
  State (add32 (sA st) (sA st')) (add32 (sB st) (sB st'))
        (add32 (sC st) (sC st')) (add32 (sD st) (sD st')).

Fixpoint blocks (count : nat) (bytes : list N) : list (list N) :=
  match count with
  | O => []
  | S m => firstn 64 bytes :: blocks m (skipn 64 bytes)
  end.

Definition digest (msg : list N) : list N :=
  let padded := pad msg in
  let st := fold_left compress (blocks (length padded / 64) padded) init in
  le_bytes 4 (sA st) ++ le_bytes 4 (sB st) ++ le_bytes 4 (sC st) ++ le_bytes 4 (sD st).

Definition hex_digit (n : N) : ascii :=
  if n <? 10 then ascii_of_N (48 + n) else ascii_of_N (87 + n).

Definition hex_of_bytes (bytes : list N) : string :=
  fold_right (fun b acc => String (hex_digit (N.shiftr b 4))
                             (String (hex_digit (N.land b 15)) acc))
             EmptyString bytes.

(** [hashlib.md5(data).hexdigest()] *)
Definition hexdigest (msg : list N) : string := hex_of_bytes (digest msg).

End MD5.

(** ** PhoneInfo *)

Record PhoneInfo : Type := mkPhoneInfo {
  numero : string;
  ddd : string;
  prefixo : string;
  sufixo : string;
  operadora : string;
  cidade : string;
  uf : string;
  tipo : string;
  latitude : option Q;
  longitude : option Q;
  consulta_ts : Z;
  valido : bool;
  portabilidade : bool
}.

Definition DESCONHECIDA : string := "Desconhecida".
Definition TIPO_INVALIDO : string := Eval cbv in Py.latin1 "INVÁLIDO".

(** ** CacheManager *)

Module CacheManager.

Definition CACHE_TTL : Z := 86400.

(** [get_key] where every code point of [phone] is below 256, so that
    [phone.encode()] cannot fail; [Str.get_key] is [get_key] on a [str]
    that may hold surrogates, with the exception that it raises there. *)
Definition get_key (phone : string) : string :=
  MD5.hexdigest (Py.encode phone).

(** [time.time() - data['consulta_ts'] > CACHE_TTL] *)
Definition expired (now : Q) (data : PhoneInfo) : bool :=
  negb (Qle_bool (now - inject_Z (consulta_ts data)) (inject_Z CACHE_TTL)).

(** [load]: the snapshot if the file exists and has not expired; an
    expired file is unlinked.  [now] is the reading of [time.time()]. *)
Definition load (now : Q) (phone : string) (files : gmap string PhoneInfo)
  : option PhoneInfo * gmap string PhoneInfo :=
  match files !! get_key phone with
  | None => (None, files)
  | Some data =>
      if expired now data then (None, delete (get_key phone) files)
      else (Some data, files)
  end.

Definition save (phone : string) (data : PhoneInfo) (files : gmap string PhoneInfo)
  : gmap string PhoneInfo :=
  <[get_key phone := data]> files.

(** [--clear-cache]: every [*.json] file of the directory is unlinked. *)
Definition clear (files : gmap string PhoneInfo) : gmap string PhoneInfo := ∅.

End CacheManager.

(** ** PhoneLookup *)

Module PhoneLookup.

Record DddInfo : Type := mkDddInfo { estado : string; regiao : string }.

Definition DDD_DATABASE : dict DddInfo :=
  let DddInfo := mkDddInfo in
  [
    ("11", DddInfo "SP" (Py.latin1 "São Paulo/SP"));
    ("12", DddInfo "SP" (Py.latin1 "São José dos Campos/SP"));
    ("13", DddInfo "SP" (Py.latin1 "Santos/SP"));
    ("14", DddInfo "SP" (Py.latin1 "Bauru/SP"));
    ("15", DddInfo "SP" (Py.latin1 "Sorocaba/SP"));
    ("16", DddInfo "SP" (Py.latin1 "Ribeirão Preto/SP"));
    ("17", DddInfo "SP" (Py.latin1 "São José do Rio Preto/SP"));
    ("18", DddInfo "SP" (Py.latin1 "Presidente Prudente/SP"));
    ("19", DddInfo "SP" (Py.latin1 "Campinas/SP"));
    ("21", DddInfo "RJ" (Py.latin1 "Rio de Janeiro/RJ"));
    ("22", DddInfo "RJ" (Py.latin1 "Campos dos Goytacazes/RJ"));
    ("24", DddInfo "RJ" (Py.latin1 "Volta Redonda/RJ"));
    ("27", DddInfo "ES" (Py.latin1 "Vitória/ES"));
    ("28", DddInfo "ES" (Py.latin1 "Cachoeiro de Itapemirim/ES"));
    ("31", DddInfo "MG" (Py.latin1 "Belo Horizonte/MG"));
    ("32", DddInfo "MG" (Py.latin1 "Juiz de Fora/MG"));
    ("33", DddInfo "MG" (Py.latin1 "Governador Valadares/MG"));
    ("34", DddInfo "MG" (Py.latin1 "Uberlândia/MG"));
    ("35", DddInfo "MG" (Py.latin1 "Poços de Caldas/MG"));
    ("37", DddInfo "MG" (Py.latin1 "Divinópolis/MG"));
    ("38", DddInfo "MG" (Py.latin1 "Montes Claros/MG"));
    ("41", DddInfo "PR" (Py.latin1 "Curitiba/PR"));
    ("42", DddInfo "PR" (Py.latin1 "Ponta Grossa/PR"));
    ("43", DddInfo "PR" (Py.latin1 "Londrina/PR"));
    ("44", DddInfo "PR" (Py.latin1 "Maringá/PR"));
    ("45", DddInfo "PR" (Py.latin1 "Foz do Iguaçu/PR"));
    ("46", DddInfo "PR" (Py.latin1 "Francisco Beltrão/PR"));
    ("47", DddInfo "SC" (Py.latin1 "Joinville/SC"));
    ("48", DddInfo "SC" (Py.latin1 "Florianópolis/SC"));
    ("49", DddInfo "SC" (Py.latin1 "Chapecó/SC"));
    ("51", DddInfo "RS" (Py.latin1 "Porto Alegre/RS"));
    ("53", DddInfo "RS" (Py.latin1 "Pelotas/RS"));
    ("54", DddInfo "RS" (Py.latin1 "Caxias do Sul/RS"));
    ("55", DddInfo "RS" (Py.latin1 "Santa Maria/RS"));
    ("61", DddInfo "DF" (Py.latin1 "Brasília/DF"));
    ("62", DddInfo "GO" (Py.latin1 "Goiânia/GO"));
    ("63", DddInfo "TO" (Py.latin1 "Palmas/TO"));
    ("64", DddInfo "GO" (Py.latin1 "Rio Verde/GO"));
    ("65", DddInfo "MT" (Py.latin1 "Cuiabá/MT"));
    ("66", DddInfo "MT" (Py.latin1 "Rondonópolis/MT"));
    ("67", DddInfo "MS" (Py.latin1 "Campo Grande/MS"));
    ("68", DddInfo "AC" (Py.latin1 "Rio Branco/AC"));
    ("69", DddInfo "RO" (Py.latin1 "Porto Velho/RO"));
    ("71", DddInfo "BA" (Py.latin1 "Salvador/BA"));
    ("73", DddInfo "BA" (Py.latin1 "Ilhéus/BA"));
    ("74", DddInfo "BA" (Py.latin1 "Juazeiro/BA"));
    ("75", DddInfo "BA" (Py.latin1 "Feira de Santana/BA"));
    ("77", DddInfo "BA" (Py.latin1 "Barreiras/BA"));
    ("79", DddInfo "SE" (Py.latin1 "Aracaju/SE"));
    ("81", DddInfo "PE" (Py.latin1 "Recife/PE"));
    ("82", DddInfo "AL" (Py.latin1 "Maceió/AL"));
    ("83", DddInfo "PB" (Py.latin1 "João Pessoa/PB"));
    ("84", DddInfo "RN" (Py.latin1 "Natal/RN"));
    ("85", DddInfo "CE" (Py.latin1 "Fortaleza/CE"));
    ("86", DddInfo "PI" (Py.latin1 "Teresina/PI"));
    ("87", DddInfo "PE" (Py.latin1 "Petrolina/PE"));
    ("88", DddInfo "CE" (Py.latin1 "Juazeiro do Norte/CE"));
    ("89", DddInfo "PI" (Py.latin1 "Picos/PI"));
    ("91", DddInfo "PA" (Py.latin1 "Belém/PA"));
    ("92", DddInfo "AM" (Py.latin1 "Manaus/AM"));
    ("93", DddInfo "PA" (Py.latin1 "Santarém/PA"));
    ("94", DddInfo "PA" (Py.latin1 "Marabá/PA"));
    ("95", DddInfo "RR" (Py.latin1 "Boa Vista/RR"));
    ("96", DddInfo "AP" (Py.latin1 "Macapá/AP"));
    ("97", DddInfo "AM" (Py.latin1 "Coari/AM"));
    ("98", DddInfo "MA" (Py.latin1 "São Luís/MA"));
    ("99", DddInfo "MA" (Py.latin1 "Imperatriz/MA")) ].

Definition OPERATOR_PREFIXES : dict (dict (dict (list string))) :=
  [ ("11",
     [ ("9", [ ("VIVO", ["96"; "97"; "98"; "99"]); ("TIM", ["94"; "95"]);
               ("CLARO", ["92"; "93"]); ("OI", ["91"]) ]);
       ("3", [ ("VIVO", ["30-39"]); ("TIM", ["20-29"]); ("CLARO", ["10-19"]) ]) ]);
    ("83",
     [ ("9", [ ("VIVO", ["96"; "97"]); ("TIM", ["94"; "95"]);
               ("CLARO", ["92"; "93"]); ("OI", ["91"]) ]);
       ("3", [ ("VIVO", ["32-35"]); ("TIM", ["21-25"]); ("CLARO", ["11-15"]) ]) ]) ].

(** The reply of the portability service, [None] on any failure. *)
Record ApiData : Type := mkApiData {
  api_operadora : string;
  api_cidade : string;
  api_uf : string;
  api_portabilidade : bool
}.

(** [map(int, parts)] consumed by the unpacking. *)
Fixpoint ints (parts : list string) : Res (list Z) :=
  match parts with
  | [] => Ok []
  | p :: ps =>
      match Py.int p with
      | Some n => let* ns := ints ps in Ok (n :: ns)
      | None => Raise ValueError
      end
  end.

(** The loop [for pref in prefixos]: [Some operadora] when the loop
    returns, [None] when it runs to its end. *)
Fixpoint scan_prefixos (prefixo operadora : string) (prefixos : list string)
  : Res (option string) :=
  match prefixos with
  | [] => Ok None
  | pref :: rest =>
      if Py.contains "-" pref then
        let* bounds := ints (Py.split "-" pref) in
        match bounds with
        | [inicio; fim] =>
            match Py.int (Py.take 2 prefixo) with
            | Some n =>
                if ((inicio <=? n) && (n <=? fim))%Z then Ok (Some operadora)
                else scan_prefixos prefixo operadora rest
            | None => Raise ValueError
            end
        | _ => Raise ValueError
        end
      else if Py.startswith prefixo pref then Ok (Some operadora)
      else scan_prefixos prefixo operadora rest
  end.

(** The loop [for operadora, prefixos in operadores.items()]. *)
Fixpoint scan_operadores (prefixo : string) (operadores : dict (list string))
  : Res (option string) :=
  match operadores with
  | [] => Ok None
  | (operadora, prefixos) :: rest =>
      let* found := scan_prefixos prefixo operadora prefixos in
      match found with
      | Some op => Ok (Some op)
      | None => scan_operadores prefixo rest
      end
  end.

Definition get_operator_by_prefix (ddd prefixo tipo : string) : Res string :=
  match dict_find OPERATOR_PREFIXES ddd with
  | None => Ok DESCONHECIDA
  | Some ddd_data =>
      if String.eqb tipo TIPO_MOVEL then
        let primeira_part :=
          match prefixo with
          | String c _ => String c EmptyString
          | EmptyString => EmptyString
          end in
        match dict_find ddd_data primeira_part with
        | Some operadores =>
            let* found := scan_operadores prefixo operadores in
            match found with
            | Some op => Ok op
            | None => Ok DESCONHECIDA
            end
        | None => Ok DESCONHECIDA
        end
      else Ok DESCONHECIDA
  end.

(** What the outside world hands to one call of [lookup]: the clock read
    by [CacheManager.load], the reply of the portability service, and the
    clock read when the record is built. *)
Record Env : Type := mkEnv {
  clock_load : Q;
  api_reply : option ApiData;
  clock_stamp : Q
}.

(** The observable effects of one call besides the cache. *)
Inductive event : Type :=
| CacheHit (phone : string)        (* logger.info("Dados do cache para ...") *)
| ApiRequest (phone : string).     (* requests.get(".../consulta/{phone}") *)

(** [int(x)] of a clock reading. *)
Definition int_of_time (t : Q) : Z := Z.quot (Qnum t) (Z.pos (Qden t)).

Definition invalid_info (phone : string) : PhoneInfo :=
  {| numero := phone; ddd := ""; prefixo := ""; sufixo := "";
     operadora := DESCONHECIDA; cidade := DESCONHECIDA; uf := "??";
     tipo := TIPO_INVALIDO; latitude := None; longitude := None;
     consulta_ts := 0; valido := false; portabilidade := false |}.

(** The part of [lookup] after a successful validation. *)
Definition compose (e : Env) (phone tipo : string) (partes : dict string)
  : Res PhoneInfo :=
  let api_data := api_reply e in
  let* ddd := dict_item partes "ddd" in
  let ddd_info :=
    dict_get DDD_DATABASE ddd {| estado := "??"; regiao := DESCONHECIDA |} in
  let* chosen :=
    match api_data with
    | Some a =>
        Ok (api_operadora a, api_cidade a, api_uf a, api_portabilidade a)
    | None =>
        let* fallback := dict_item partes "prefixo" in
        let* operadora :=
          get_operator_by_prefix ddd (dict_get partes "raw_prefixo" fallback) tipo in
        Ok (operadora, hd EmptyString (Py.split "/" (regiao ddd_info)),
            estado ddd_info, false)
    end in
  let '(operadora, cidade, uf, portabilidade) := chosen in
  let* prefixo := dict_item partes "prefixo" in
  let* sufixo := dict_item partes "sufixo" in
  Ok {| numero := phone; ddd := ddd; prefixo := prefixo; sufixo := sufixo;
        operadora := operadora; cidade := cidade; uf := uf; tipo := tipo;
        latitude := None; longitude := None;
        consulta_ts := int_of_time (clock_stamp e);
        valido := true; portabilidade := portabilidade |}.

Definition lookup (e : Env) (phone : string) (files : gmap string PhoneInfo)
  : Res PhoneInfo * gmap string PhoneInfo * list event :=
  let '(cached, files) := CacheManager.load (clock_load e) phone files in
  match cached with
  | Some data => (Ok data, files, [CacheHit phone])
  | None =>
      let '(valido, tipo, partes) := PhoneValidator.validate phone in
      if negb valido then (Ok (invalid_info phone), files, [])
      else
        match compose e phone tipo partes with
        | Ok info => (Ok info, CacheManager.save phone info files, [ApiRequest phone])
        | Raise x => (Raise x, files, [ApiRequest phone])
        end
  end.

End PhoneLookup.

(** ** The program on a [str] that may hold surrogates

    [tel.py] ends with [PhoneLookup.lookup(sys.argv[1])], and [sys.argv]
    holds a lone surrogate for every byte of the command line that is not
    UTF-8.  [phone.encode()] raises [UnicodeEncodeError] on such a [str];
    [load] and [save] call [get_key] while they build the file name,
    before their [try], and [lookup] catches nothing. *)

Module Str.

(** A character: a code point below 256, or a surrogate with its code
    point (U+D800 to U+DFFF). *)
Inductive char : Type :=
| Chr (c : ascii)
| Surrogate (code : N).

Definition t : Type := list char.

(** The [str] of a string of code points below 256. *)
Fixpoint of_string (s : string) : t :=
  match s with
  | EmptyString => []
  | String c r => Chr c :: of_string r
  end.

(** The string of a [str] that holds no surrogate. *)
Fixpoint narrow (s : t) : option string :=
  match s with
  | [] => Some EmptyString
  | Chr c :: r =>
      match narrow r with
      | Some r' => Some (String c r')
      | None => None
      end
  | Surrogate _ :: _ => None
  end.

(** [s.encode()]: the UTF-8 codec refuses a surrogate. *)
Fixpoint encode (s : t) : Res (list N) :=
  match s with
  | [] => Ok []
  | Chr c :: r =>
      let n := N_of_ascii c in
      let* bytes := encode r in
      if (n <? 128)%N then Ok (n :: bytes)
      else Ok (N.lor 192 (N.shiftr n 6) :: N.lor 128 (N.land n 63) :: bytes)
  | Surrogate _ :: _ => Raise UnicodeEncodeError
  end.

(** [hashlib.md5(phone.encode()).hexdigest()] *)
Definition get_key (phone : t) : Res string :=
  let* bytes := encode phone in
  Ok (MD5.hexdigest bytes).

(** [load]: the file name is built first, outside the [try]. *)
Definition load (now : Q) (phone : t) (files : gmap string PhoneInfo)
  : Res (option PhoneInfo) * gmap string PhoneInfo :=
  match get_key phone with
  | Raise x => (Raise x, files)
  | Ok key =>
      match files !! key with
      | None => (Ok None, files)
      | Some data =>
          if CacheManager.expired now data then (Ok None, delete key files)
          else (Ok (Some data), files)
      end
  end.

(** [save]: the file name is built first, outside the [try]. *)
Definition save (phone : t) (data : PhoneInfo) (files : gmap string PhoneInfo)
  : Res unit * gmap string PhoneInfo :=
  match get_key phone with
  | Raise x => (Raise x, files)
  | Ok key => (Ok tt, <[key := data]> files)
  end.

(** [re.sub(r'\D', '', s)]: a surrogate is not a digit. *)
Fixpoint sub_nondigits (s : t) : string :=
  match s with
  | [] => EmptyString
  | Chr c :: r => if Py.isdigit c then String c (sub_nondigits r) else sub_nondigits r
  | Surrogate _ :: r => sub_nondigits r
  end.

Definition normalize (phone : t) : option string :=
  let digits := sub_nondigits phone in
  let digits :=
    if (String.length digits =? 11)%nat && Py.char_is digits 0 "0"
    then Py.drop 1 digits else digits in
  if (10 <=? String.length digits)%nat && (String.length digits <=? 11)%nat
  then Some digits else None.

(** [validate] looks at [phone] through [normalize] only; what it does
    with the digits is what [PhoneValidator.validate] does with them. *)
Definition validate (phone : t) : bool * string * dict string :=
  match normalize phone with
  | None => (false, FORMATO_INVALIDO, [])
  | Some EmptyString => (false, FORMATO_INVALIDO, [])
  | Some digits =>
      let unrecognised := (false, FORMATO_NAO_RECONHECIDO, []) in
      if (String.length digits =? 11)%nat && Py.char_is digits 2 "9" then
        match Re.re_match PhoneValidator.PATTERN_mobile digits with
        | Some m =>
            (true, TIPO_MOVEL,
             [ ("ddd", Re.group_of m 1);
               ("prefixo", Py.drop 1 (Re.group_of m 2));
               ("sufixo", Re.group_of m 3);
               ("raw_prefixo", Re.group_of m 2) ])
        | None => unrecognised
        end
      else if (String.length digits =? 11)%nat then
        match Re.re_match PhoneValidator.PATTERN_landline digits with
        | Some m =>
            (true, TIPO_FIXO,
             [ ("ddd", Re.group_of m 1);
               ("prefixo", Re.group_of m 2);
               ("sufixo", Re.group_of m 3) ])
        | None => unrecognised
        end
      else if (String.length digits =? 10)%nat then
        match Re.re_match PhoneValidator.PATTERN_short digits with
        | Some m =>
            (true, TIPO_FIXO,
             [ ("ddd", Re.group_of m 1);
               ("prefixo", Re.group_of m 2);
               ("sufixo", Re.group_of m 3) ])
        | None => unrecognised
        end
      else unrecognised
  end.

(** [phone] as a string of code points below 256, which it is whenever
    its file name could be built. *)
Definition text (phone : t) : string :=
  match narrow phone with
  | Some s => s
  | None => EmptyString
  end.

(** [lookup] catches nothing: what [load] or [save] raises while it
    builds the file name leaves the call.  Past [load], [phone] holds no
    surrogate, and the record and the log lines carry it as it is. *)
Definition lookup (e : PhoneLookup.Env) (phone : t) (files : gmap string PhoneInfo)
  : Res PhoneInfo * gmap string PhoneInfo * list PhoneLookup.event :=
  match load (PhoneLookup.clock_load e) phone files with
  | (Raise x, files) => (Raise x, files, [])
  | (Ok (Some data), files) => (Ok data, files, [PhoneLookup.CacheHit (text phone)])
  | (Ok None, files) =>
      let '(valido, tipo, partes) := validate phone in
      if negb valido then (Ok (PhoneLookup.invalid_info (text phone)), files, [])
      else
        match PhoneLookup.compose e (text phone) tipo partes with
        | Ok info =>
            match save phone info files with
            | (Ok _, files') => (Ok info, files', [PhoneLookup.ApiRequest (text phone)])
            | (Raise x, files') => (Raise x, files', [PhoneLookup.ApiRequest (text phone)])
            end
        | Raise x => (Raise x, files, [PhoneLookup.ApiRequest (text phone)])
        end
  end.

End Str.

(** ** Statements of the specification, in its own words *)

Import PhoneValidator CacheManager PhoneLookup.

(** A canonical number is an output of the normaliser. *)
Definition canonical (d : string) : Prop :=
  exists raw, normalize raw = Some d.

(** The input with every non-digit character removed. *)
Definition digits_of (phone : string) : string :=
  string_of_list_ascii (List.filter Py.isdigit (list_ascii_of_string phone)).

(** Trunk-prefix removal: an 11-digit string that begins with 0 loses
    that digit. *)
Definition drop_trunk (d : string) : string :=
  match d with
  | String "0" rest => if decide (String.length d = 11%nat) then rest else d
  | _ => d
  end.

(** The shape of a canonical number: digits only, 10 or 11 of them, and
    not 11 digits beginning with 0. *)
Definition canonical_shape (d : string) : Prop :=
  Py.all_digits d = true
  /\ (String.length d = 10 \/ String.length d = 11)%nat
  /\ ~ (String.length d = 11%nat /\ String.get 0 d = Some "0"%char).

(** A prefix specification as the specification describes it: an exact
    string matched as a prefix, or an inclusive numeric range. *)
Inductive prefix_spec : Type :=
| Exact (p : string)
| Between (lo hi : Z).

(** The carrier rules of the static table, one (carrier, specification)
    pair per line of iteration. *)
Definition RULES : dict (dict (list (string * prefix_spec))) :=
  [ ("11",
     [ ("9", [ ("VIVO", Exact "96"); ("VIVO", Exact "97"); ("VIVO", Exact "98");
               ("VIVO", Exact "99"); ("TIM", Exact "94"); ("TIM", Exact "95");
               ("CLARO", Exact "92"); ("CLARO", Exact "93"); ("OI", Exact "91") ]);
       ("3", [ ("VIVO", Between 30 39); ("TIM", Between 20 29);
               ("CLARO", Between 10 19) ]) ]);
    ("83",
     [ ("9", [ ("VIVO", Exact "96"); ("VIVO", Exact "97"); ("TIM", Exact "94");
               ("TIM", Exact "95"); ("CLARO", Exact "92"); ("CLARO", Exact "93");
               ("OI", Exact "91") ]);
       ("3", [ ("VIVO", Between 32 35); ("TIM", Between 21 25);
               ("CLARO", Between 11 15) ]) ]) ].

(** The integer value of the first two digits of a digit string. *)
Definition first_two_value (prefixo : string) : Z :=
  match prefixo with
  | String a (String b _) => 10 * Py.digit_val a + Py.digit_val b
  | String a EmptyString => Py.digit_val a
  | EmptyString => 0
  end.

Definition spec_matches (prefixo : string) (sp : prefix_spec) : bool :=
  match sp with
  | Exact p => String.prefix p prefixo
  | Between lo hi =>
      ((lo <=? first_two_value prefixo) && (first_two_value prefixo <=? hi))%Z
  end.

(** The first rule, in table order, whose specification matches. *)
Definition first_match (prefixo : string) (rules : list (string * prefix_spec))
  : option string :=
  option_map fst (find (fun rule => spec_matches prefixo (snd rule)) rules).

(** Carrier resolution as the specification words it. *)
Definition resolve (ddd prefixo tipo : string) : string :=
  if decide (tipo = TIPO_MOVEL) then
    match dict_find RULES ddd with
    | None => DESCONHECIDA
    | Some families =>
        match dict_find families (Py.take 1 prefixo) with
        | None => DESCONHECIDA
        | Some rules =>
            match first_match prefixo rules with
            | Some carrier => carrier
            | None => DESCONHECIDA
            end
        end
    end
  else DESCONHECIDA.

(** *** Reading the table of the source into rules *)

Definition read_spec (pref : string) : option prefix_spec :=
  if Py.contains "-" pref then
    match Py.split "-" pref with
    | [a; b] =>
        match Py.int a, Py.int b with
        | Some lo, Some hi => Some (Between lo hi)
        | _, _ => None
        end
    | _ => None
    end
  else Some (Exact pref).

Fixpoint read_specs (operadora : string) (prefixos : list string)
  : option (list (string * prefix_spec)) :=
  match prefixos with
  | [] => Some []
  | pref :: rest =>
      match read_spec pref, read_specs operadora rest with
      | Some sp, Some rules => Some ((operadora, sp) :: rules)
      | _, _ => None
      end
  end.

Fixpoint read_carriers (operadores : dict (list string))
  : option (list (string * prefix_spec)) :=
  match operadores with
  | [] => Some []
  | (operadora, prefixos) :: rest =>
      match read_specs operadora prefixos, read_carriers rest with
      | Some here, Some later => Some (here ++ later)%list
      | _, _ => None
      end
  end.

Fixpoint read_dict {A B : Type} (f : A -> option B) (d : dict A) : option (dict B) :=
  match d with
  | [] => Some []
  | (k, a) :: rest =>
      match f a, read_dict f rest with
      | Some b, Some rest' => Some ((k, b) :: rest')
      | _, _ => None
      end
  end.

(** Validation accepts the input. *)
Definition accepts (phone : string) : bool := fst (fst (validate phone)).

(** Every entry is filed under the digest of its own [numero]: the
    invariant of a cache directory written by [lookup] alone. *)
Definition filed_by_numero (files : gmap string PhoneInfo) : Prop :=
  forall k r, files !! k = Some r -> k = get_key (numero r).

(** A record is written only for an input that validation accepts, and
    it is valid: rejected inputs are never persisted. *)
Definition only_accepted (files : gmap string PhoneInfo) : Prop :=
  forall k r, files !! k = Some r -> valido r = true /\ accepts (numero r) = true.

(** A record computed at 1700000000. *)
Definition stale_example : PhoneInfo :=
  {| numero := "83993437321"; ddd := "83"; prefixo := "9343"; sufixo := "7321";
     operadora := DESCONHECIDA; cidade := Py.latin1 "João Pessoa"; uf := "PB";
     tipo := TIPO_MOVEL; latitude := None; longitude := None;
     consulta_ts := 1700000000; valido := true; portabilidade := false |}.


(** ** More of the program *)

(** *** [PhoneInfo.formatado] *)

Definition formatado (self : PhoneInfo) : string :=
  if String.eqb (tipo self) TIPO_MOVEL
  then "(" +:+ ddd self +:+ ") 9" +:+ prefixo self +:+ "-" +:+ sufixo self
  else "(" +:+ ddd self +:+ ") " +:+ prefixo self +:+ "-" +:+ sufixo self.

(** *** [ConsoleDisplay.show_batch_summary]: the numbers it prints *)

Module ConsoleDisplay.

(** [sum(1 for r in results if f(r))] *)
Definition count_if {A : Type} (f : A -> bool) (results : list A) : Z :=
  fold_left (fun acc r => if f r then acc + 1 else acc)%Z results 0%Z.

(** [d[k] = v]: the value is replaced where the key stands, a new key goes
    to the end. *)
Fixpoint dict_set {V : Type} (d : dict V) (k : string) (v : V) : dict V :=
  match d with
  | [] => [(k, v)]
  | (k', v') :: rest =>
      if String.eqb k' k then (k', v) :: rest else (k', v') :: dict_set rest k v
  end.

(** The body of the loop that fills [operadoras]. *)
Definition tally_step (operadoras : dict Z) (r : PhoneInfo) : dict Z :=
  if valido r
  then dict_set operadoras (operadora r) (dict_get operadoras (operadora r) 0 + 1)%Z
  else operadoras.

(** The loop, from the empty dictionary. *)
Definition tally (results : list PhoneInfo) : dict Z :=
  fold_left tally_step results [].

(** [sorted(items, key=lambda x: x[1], reverse=True)]: a stable sort,
    largest count first, ties in their order of arrival. *)
Fixpoint insert_desc (x : string * Z) (done : list (string * Z)) : list (string * Z) :=
  match done with
  | [] => [x]
  | y :: rest =>
      if (snd y <? snd x)%Z then x :: y :: rest else y :: insert_desc x rest
  end.

Definition sorted_desc (items : list (string * Z)) : list (string * Z) :=
  fold_left (fun done x => insert_desc x done) items [].

Record Summary : Type := mkSummary {
  total : Z;
  valid_count : Z;
  mobile_count : Z;
  fixed_count : Z;
  invalid_count : Z;
  distribution : list (string * Z)
}.

(** [None] when [results] is empty and nothing is printed; otherwise the
    numbers of the printed lines, in their order. *)
Definition show_batch_summary (results : list PhoneInfo) : option Summary :=
  match results with
  | [] => None
  | _ =>
      let valid := count_if valido results in
      let mobile := count_if (fun r => String.eqb (tipo r) TIPO_MOVEL) results in
      let fixed := count_if (fun r => String.eqb (tipo r) TIPO_FIXO) results in
      Some {| total := Z.of_nat (length results);
              valid_count := valid;
              mobile_count := mobile;
              fixed_count := fixed;
              invalid_count := Z.of_nat (length results) - valid;
              distribution := sorted_desc (tally results) |}
  end.

End ConsoleDisplay.

(** *** The HTTP front end of [drop/pad.py] *)

(** [info.latitude = lat; info.longitude = lon] *)
Definition set_location (info : PhoneInfo) (lat lon : Q) : PhoneInfo :=
  {| numero := numero info; ddd := ddd info;
     prefixo := prefixo info; sufixo := sufixo info;
     operadora := operadora info; cidade := cidade info;
     uf := uf info; tipo := tipo info;
     latitude := Some lat; longitude := Some lon;
     consulta_ts := consulta_ts info; valido := valido info;
     portabilidade := portabilidade info |}.

Module Pad.

Definition NUMERO_INVALIDO : string := Eval cbv in Py.latin1 "Número inválido".

Inductive response (A : Type) : Type :=
| Returned (a : A)
| HTTPException (status_code : Z) (detail : string)
| Uncaught (x : exn).

Arguments Returned {A} a.
Arguments HTTPException {A} status_code detail.
Arguments Uncaught {A} x.

Inductive api_event : Type :=
| Core (ev : event)
| GeoRequest.                  (* GeolocationService.get_cell_location() *)

(** [GET /consulta].  [geo_reply] is what the geolocation service would
    answer: latitude and longitude, or nothing. *)
Definition consultar_telefone (e : Env) (geo_reply : option (Q * Q))
  (numero : string) (geo : bool) (files : gmap string PhoneInfo)
  : response PhoneInfo * gmap string PhoneInfo * list api_event :=
  match normalize numero with
  | None => (HTTPException 400 NUMERO_INVALIDO, files, [])
  | Some EmptyString => (HTTPException 400 NUMERO_INVALIDO, files, [])
  | Some normalized =>
      match lookup e normalized files with
      | (Raise x, files', trace) => (Uncaught x, files', map Core trace)
      | (Ok info, files', trace) =>
          if negb (valido info)
          then (HTTPException 400 FORMATO_NAO_RECONHECIDO, files', map Core trace)
          else if geo then
            match geo_reply with
            | Some (lat, lon) =>
                (Returned (set_location info lat lon),
                 files', (map Core trace ++ [GeoRequest])%list)
            | None => (Returned info, files', (map Core trace ++ [GeoRequest])%list)
            end
          else (Returned info, files', map Core trace)
      end
  end.

(** The loop of [POST /consulta/lote]; [world i] is the outside world
    while the item of index [i] is processed. *)
Fixpoint lote_loop (world : nat -> Env) (i : nat) (numeros : list string)
  (files : gmap string PhoneInfo) (resultados : list PhoneInfo) (trace : list event)
  : Res (list PhoneInfo) * gmap string PhoneInfo * list event :=
  match numeros with
  | [] => (Ok resultados, files, trace)
  | numero :: rest =>
      match normalize numero with
      | None => lote_loop world (S i) rest files resultados trace
      | Some EmptyString => lote_loop world (S i) rest files resultados trace
      | Some normalized =>
          match lookup (world i) normalized files with
          | (Ok info, files', tr) =>
              lote_loop world (S i) rest files' (resultados ++ [info])%list
                        (trace ++ tr)%list
          | (Raise x, files', tr) => (Raise x, files', (trace ++ tr)%list)
          end
      end
  end.

Record Lote : Type := mkLote { lote_total : Z; lote_resultados : list PhoneInfo }.

Definition consulta_em_lote (world : nat -> Env) (numeros : list string)
  (files : gmap string PhoneInfo)
  : response Lote * gmap string PhoneInfo * list event :=
  match lote_loop world 0 numeros files [] [] with
  | (Ok resultados, files', trace) =>
      (Returned {| lote_total := Z.of_nat (length resultados);
                   lote_resultados := resultados |}, files', trace)
  | (Raise x, files', trace) => (Uncaught x, files', trace)
  end.

End Pad.

(** *** [drop/gra.py]: the bars of the carrier chart *)

Module Gra.

(** The values a result dictionary holds: those of the fields of a
    [PhoneInfo]; floats are rationals. *)
Inductive pyval : Type :=
| PNone
| PBool (b : bool)
| PInt (n : Z)
| PFloat (q : Q)
| PStr (s : string).

(** [bool(v)] *)
Definition truthy (v : pyval) : bool :=
  match v with
  | PNone => false
  | PBool b => b
  | PInt n => negb (n =? 0)%Z
  | PFloat q => negb (Qeq_bool q 0)
  | PStr s => negb (String.eqb s EmptyString)
  end.

(** The number a value stands for as a dictionary key: [True] is [1]
    is [1.0]. *)
Definition number (v : pyval) : option Q :=
  match v with
  | PBool b => Some (if b then 1%Q else 0%Q)
  | PInt n => Some (inject_Z n)
  | PFloat q => Some q
  | _ => None
  end.

(** Equality of dictionary keys. *)
Definition key_eqb (a b : pyval) : bool :=
  match a, b with
  | PNone, PNone => true
  | PStr s, PStr t => String.eqb s t
  | _, _ =>
      match number a, number b with
      | Some x, Some y => Qeq_bool x y
      | _, _ => false
      end
  end.

(** A result is a dictionary (as the HTTP front end passes) or a
    [PhoneInfo] object. *)
Inductive result : Type :=
| Dict (d : dict pyval)
| Obj (r : PhoneInfo).

Definition opt_float (x : option Q) : pyval :=
  match x with
  | Some q => PFloat q
  | None => PNone
  end.

(** [dataclasses.asdict] of a [PhoneInfo]. *)
Definition asdict (r : PhoneInfo) : dict pyval :=
  [ ("numero", PStr (numero r)); ("ddd", PStr (ddd r));
    ("prefixo", PStr (prefixo r)); ("sufixo", PStr (sufixo r));
    ("operadora", PStr (operadora r)); ("cidade", PStr (cidade r));
    ("uf", PStr (uf r)); ("tipo", PStr (tipo r));
    ("latitude", opt_float (latitude r)); ("longitude", opt_float (longitude r));
    ("consulta_ts", PInt (consulta_ts r)); ("valido", PBool (valido r));
    ("portabilidade", PBool (portabilidade r)) ].

(** The body of the loop that fills [operadoras]. *)
Definition collect (operadoras : list pyval) (r : result) : list pyval :=
  match r with
  | Dict d =>
      if negb (truthy (dict_get d "valido" (PBool true))) then operadoras
      else (operadoras ++ [dict_get d "operadora" (PStr DESCONHECIDA)])%list
  | Obj o =>
      if negb (valido o) then operadoras
      else (operadoras ++ [PStr (operadora o)])%list
  end.

(** One more occurrence of [k] in a [Counter]. *)
Fixpoint counter_add (contagem : list (pyval * Z)) (k : pyval) : list (pyval * Z) :=
  match contagem with
  | [] => [(k, 1%Z)]
  | (k', n) :: rest =>
      if key_eqb k' k then (k', (n + 1)%Z) :: rest
      else (k', n) :: counter_add rest k
  end.

(** [Counter(items)] *)
Definition Counter (items : list pyval) : list (pyval * Z) :=
  fold_left counter_add items [].

(** [None] when there is nothing to draw; otherwise [nomes] and
    [valores], the labels and the heights of the bars. *)
Definition grafico_por_operadora (resultados : list result)
  : option (list pyval * list Z) :=
  match fold_left collect resultados [] with
  | [] => None
  | operadoras =>
      let contagem := Counter operadoras in
      Some (map fst contagem, map snd contagem)
  end.

End Gra.

(** *** [POST /grafico/operadoras] of [drop/pad.py] *)

Definition NENHUM_NUMERO_VALIDO : string :=
  Eval cbv in Py.latin1 "Nenhum número válido".

(** [str(n)] for an integer. *)
Definition str_of_int (n : Z) : string := NilZero.string_of_int (Z.to_int n).

Record Grafico : Type := mkGrafico {
  status : string;
  arquivo : string;
  caminho : string;
  grafico_total : Z
}.

(** The loop is that of [consulta_em_lote].  [now] is the reading of the
    clock for the file name, [graph_dir] is [str(GRAPH_DIR)]; beside the
    answer stands what [grafico_por_operadora] drew before the figure
    was saved. *)
Definition grafico_operadoras (world : nat -> PhoneLookup.Env) (now : Q)
  (graph_dir : string) (numeros : list string) (files : gmap string PhoneInfo)
  : Pad.response Grafico * option (list Gra.pyval * list Z)
    * gmap string PhoneInfo * list PhoneLookup.event :=
  match Pad.lote_loop world 0 numeros files [] [] with
  | (Raise x, files', trace) => (Pad.Uncaught x, None, files', trace)
  | (Ok [], files', trace) =>
      (Pad.HTTPException 400 NENHUM_NUMERO_VALIDO, None, files', trace)
  | (Ok resultados, files', trace) =>
      let filename :=
        "operadoras_" +:+ str_of_int (PhoneLookup.int_of_time now) +:+ ".png" in
      (Pad.Returned {| status := "ok";
                       arquivo := filename;
                       caminho := graph_dir +:+ "/" +:+ filename;
                       grafico_total := Z.of_nat (length resultados) |},
       Gra.grafico_por_operadora (map (fun r => Gra.Dict (Gra.asdict r)) resultados),
       files', trace)
  end.

(** ** Statements about the rest of the program *)

(** The record that a miss computes for an accepted number whose digits
    are [d], field by field. *)
Definition fresh_info (e : Env) (phone d : string) : PhoneInfo :=
  let area := substring 0 2 d in
  let ddd_info :=
    dict_get DDD_DATABASE area {| estado := "??"; regiao := DESCONHECIDA |} in
  {| numero := phone;
     ddd := area;
     prefixo := substring 3 4 d;
     sufixo := substring 7 4 d;
     operadora :=
       match api_reply e with
       | Some a => api_operadora a
       | None => resolve area (substring 2 5 d) TIPO_MOVEL
       end;
     cidade :=
       match api_reply e with
       | Some a => api_cidade a
       | None => hd EmptyString (Py.split "/" (regiao ddd_info))
       end;
     uf :=
       match api_reply e with
       | Some a => api_uf a
       | None => estado ddd_info
       end;
     tipo := TIPO_MOVEL;
     latitude := None;
     longitude := None;
     consulta_ts := int_of_time (clock_stamp e);
     valido := true;
     portabilidade :=
       match api_reply e with
       | Some a => api_portabilidade a
       | None => false
       end |}.

(** The shape of a mobile number after normalisation. *)
Definition mobile_shape (d : string) : Prop :=
  String.length d = 11%nat /\ String.get 2 d = Some "9"%char.

(** The carrier that the static table gives a mobile number, from its
    area code and the digit that follows the leading 9. *)
Definition mobile_carrier (area : string) (digit : ascii) : string :=
  if String.eqb area "11" then
    if existsb (Ascii.eqb digit) ["6"; "7"; "8"; "9"]%char then "VIVO"
    else if existsb (Ascii.eqb digit) ["4"; "5"]%char then "TIM"
    else if existsb (Ascii.eqb digit) ["2"; "3"]%char then "CLARO"
    else if Ascii.eqb digit "1" then "OI"
    else DESCONHECIDA
  else if String.eqb area "83" then
    if existsb (Ascii.eqb digit) ["6"; "7"]%char then "VIVO"
    else if existsb (Ascii.eqb digit) ["4"; "5"]%char then "TIM"
    else if existsb (Ascii.eqb digit) ["2"; "3"]%char then "CLARO"
    else if Ascii.eqb digit "1" then "OI"
    else DESCONHECIDA
  else DESCONHECIDA.

(** A record as [lookup] computes it: valid, mobile, of an accepted
    number, with the parts of that number. *)
Definition well_formed (r : PhoneInfo) : Prop :=
  exists d,
    normalize (numero r) = Some d
    /\ mobile_shape d
    /\ valido r = true
    /\ tipo r = TIPO_MOVEL
    /\ ddd r = substring 0 2 d
    /\ prefixo r = substring 3 4 d
    /\ sufixo r = substring 7 4 d.


(** Lower-case hexadecimal digits. *)
Definition is_hex (c : ascii) : bool :=
  Py.isdigit c || ((97 <=? N_of_ascii c) && (N_of_ascii c <=? 102))%N.

(** The inputs of a batch that survive normalisation, normalised. *)
Fixpoint normalized_of (numeros : list string) : list string :=
  match numeros with
  | [] => []
  | numero :: rest =>
      match normalize numero with
      | Some d => d :: normalized_of rest
      | None => normalized_of rest
      end
  end.

(** Counts in non-increasing order. *)
Inductive descending : list (string * Z) -> Prop :=
| desc_nil : descending []
| desc_one (x : string * Z) : descending [x]
| desc_cons (x y : string * Z) (rest : list (string * Z)) :
    (snd y <= snd x)%Z -> descending (y :: rest) -> descending (x :: y :: rest).

(** The sum of the counts of a distribution. *)
Definition sum_counts (items : list (string * Z)) : Z :=
  fold_right (fun item acc => snd item + acc)%Z 0%Z items.

(** How many valid records name the carrier [op]. *)
Definition occurrences (op : string) (results : list PhoneInfo) : Z :=
  Z.of_nat (length (List.filter (fun r => valido r && String.eqb (operadora r) op)
                                results)).

(** The items of a distribution that have the count [n], in their order. *)
Definition with_count (n : Z) (items : list (string * Z)) : list (string * Z) :=
  List.filter (fun item => Z.eqb (snd item) n) items.


(** A result that the chart keeps: its [valido] is true, or missing. *)
Definition kept (r : Gra.result) : bool :=
  match r with
  | Gra.Dict d => Gra.truthy (dict_get d "valido" (Gra.PBool true))
  | Gra.Obj o => valido o
  end.

(** The carrier under which the chart counts a result. *)
Definition bar_of (r : Gra.result) : Gra.pyval :=
  match r with
  | Gra.Dict d => dict_get d "operadora" (Gra.PStr DESCONHECIDA)
  | Gra.Obj o => Gra.PStr (operadora o)
  end.

(** The [str] holds a surrogate, which [encode] refuses. *)
Definition holds_surrogate (phone : Str.t) : bool :=
  existsb (fun c => match c with Str.Surrogate _ => true | Str.Chr _ => false end)
          phone.

(** Validation accepts the [str]. *)
Definition accepts_str (phone : Str.t) : bool := fst (fst (Str.validate phone)).

(** ** Proof automation *)

(** Splits a string of known length into its characters. *)
Ltac explode d H :=
  repeat (destruct d as [|?c d]; simpl in H; try (exfalso; lia)).

Ltac split_digits :=
  repeat match goal with
         | H : _ && _ = true |- _ => apply andb_prop in H as [? H]
         end.

Ltac use_digit :=
  match goal with
  | H : Py.isdigit ?c = true |- context [Py.isdigit ?c] => rewrite H
  end.

Ltac use_digits := split_digits; cbn; repeat (use_digit; cbn).

(** * Properties *)

(** ** Normalisation *)

Lemma sub_nondigits_filter (s : string) :
  Py.sub_nondigits s = digits_of s.
Proof.
  unfold digits_of. induction s as [|c r IH]; simpl; [reflexivity|].
  destruct (Py.isdigit c); simpl; now rewrite IH.
Qed.

Lemma all_digits_sub_nondigits (s : string) :
  Py.all_digits (Py.sub_nondigits s) = true.
Proof.
  unfold Py.all_digits. induction s as [|c r IH]; simpl; [reflexivity|].
  destruct (Py.isdigit c) eqn:E; simpl; [rewrite E|]; exact IH.
Qed.

Lemma sub_nondigits_id (s : string) :
  Py.all_digits s = true -> Py.sub_nondigits s = s.
Proof.
  unfold Py.all_digits. induction s as [|c r IH]; simpl; [reflexivity|].
  intros [Hc Hr]%andb_prop. rewrite Hc, IH; auto.
Qed.

Lemma all_digits_drop (n : nat) (s : string) :
  Py.all_digits s = true -> Py.all_digits (Py.drop n s) = true.
Proof.
  unfold Py.all_digits. revert s.
  induction n as [|n IH]; intros [|c r]; simpl; auto.
  intros [_ Hr]%andb_prop. now apply IH.
Qed.

Lemma drop_trunk_char_is (d : string) :
  drop_trunk d =
  if (String.length d =? 11)%nat && Py.char_is d 0 "0" then Py.drop 1 d else d.
Proof.
  unfold drop_trunk, Py.char_is. destruct d as [|c r]; simpl.
  - reflexivity.
  - destruct (Ascii.eqb_spec c "0") as [->|Hne].
    + simpl. case_decide as Hlen.
      * injection Hlen as ->. now rewrite Nat.eqb_refl.
      * destruct (Nat.eqb_spec (String.length r) 10) as [E|_]; [|reflexivity].
        now rewrite E in Hlen.
    + rewrite andb_false_r.
      destruct c as [[] [] [] [] [] [] [] []]; try reflexivity.
      now contradict Hne.
Qed.

Lemma length_drop (n : nat) (s : string) :
  String.length (Py.drop n s) = (String.length s - n)%nat.
Proof.
  revert s. induction n as [|n IH]; intros [|c r]; simpl; auto.
Qed.

Lemma char_is_get (s : string) (i : nat) (c : ascii) :
  Py.char_is s i c = true <-> String.get i s = Some c.
Proof.
  unfold Py.char_is. destruct (String.get i s) as [d|].
  - rewrite Ascii.eqb_eq. split; congruence.
  - split; discriminate.
Qed.

(** C7. [normalize] strips every non-digit character, drops the leading
    digit when exactly 11 digits remain and the first is 0, and returns
    the resulting digit string exactly when its length is 10 or 11; it
    signals invalid ([None]) otherwise. *)
Theorem normalize_characterisation (phone : string) :
  let r := drop_trunk (digits_of phone) in
  (normalize phone = Some r /\ (String.length r = 10 \/ String.length r = 11)%nat)
  \/ (normalize phone = None /\ String.length r <> 10%nat /\ String.length r <> 11%nat).
Proof.
  intros r. subst r. unfold normalize.
  rewrite sub_nondigits_filter, <- drop_trunk_char_is.
  set (r := drop_trunk (digits_of phone)).
  destruct (Nat.leb_spec 10 (String.length r)) as [Hlo|Hlo];
    destruct (Nat.leb_spec (String.length r) 11) as [Hhi|Hhi]; simpl.
  - left. split; [reflexivity|lia].
  - right. split; [reflexivity|lia].
  - right. split; [reflexivity|lia].
  - right. split; [reflexivity|lia].
Qed.

Lemma normalize_shape (phone d : string) :
  normalize phone = Some d -> canonical_shape d.
Proof.
  unfold normalize, canonical_shape.
  set (digits := Py.sub_nondigits phone).
  assert (Hall : Py.all_digits digits = true) by apply all_digits_sub_nondigits.
  destruct ((String.length digits =? 11)%nat && Py.char_is digits 0 "0") eqn:Hc.
  - apply andb_prop in Hc as [Hlen%Nat.eqb_eq _].
    assert (Hd : String.length (Py.drop 1 digits) = 10%nat)
      by (rewrite length_drop, Hlen; reflexivity).
    rewrite Hd. cbn -[Py.drop]. intros [= <-].
    split; [exact (all_digits_drop 1 digits Hall)|].
    split; [left; exact Hd|]. intros [H11 _].
    change (String.length (Py.drop 1 digits) = 11%nat) in H11. congruence.
  - destruct (Nat.leb_spec 10 (String.length digits)) as [Hlo|]; [|discriminate].
    destruct (Nat.leb_spec (String.length digits) 11) as [Hhi|]; [|discriminate].
    simpl. intros [= <-]. split; [exact Hall|]. split; [lia|].
    intros [Hlen Hget]. apply char_is_get in Hget.
    now rewrite Hlen, Hget in Hc.
Qed.

Lemma shape_normalize (d : string) :
  canonical_shape d -> normalize d = Some d.
Proof.
  intros (Hall & Hlen & Hno). unfold normalize.
  rewrite (sub_nondigits_id d Hall).
  destruct ((String.length d =? 11)%nat && Py.char_is d 0 "0") eqn:Hc.
  - apply andb_prop in Hc as [H11%Nat.eqb_eq H0%char_is_get]. now destruct Hno.
  - destruct Hlen as [-> | ->]; reflexivity.
Qed.

(** The three readings of "canonical" agree. *)
Lemma canonical_iff (d : string) :
  canonical d <-> normalize d = Some d.
Proof.
  split.
  - intros [raw H]. eapply shape_normalize, normalize_shape, H.
  - intros H. now exists d.
Qed.

Lemma canonical_shape_iff (d : string) :
  canonical d <-> canonical_shape d.
Proof.
  rewrite canonical_iff. split; [apply normalize_shape | apply shape_normalize].
Qed.

(** C10. [normalize] is idempotent on its successes: a successful output
    normalises to itself; it consists of digits only, has length 10 or
    11, and is never an 11-digit string beginning with 0. *)
Theorem normalize_idempotent (phone d : string) :
  normalize phone = Some d ->
  normalize d = Some d
  /\ Py.all_digits d = true
  /\ (String.length d = 10 \/ String.length d = 11)%nat
  /\ ~ (String.length d = 11%nat /\ String.get 0 d = Some "0"%char).
Proof.
  intros H. pose proof (normalize_shape _ _ H) as Hs.
  split; [now apply shape_normalize | exact Hs].
Qed.

Lemma normalize_idempotent_witness :
  normalize "(83) 99343-7321" = Some "83993437321"
  /\ normalize "83993437321" = Some "83993437321"
  /\ Py.all_digits "83993437321" = true.
Proof.
  assert (H : normalize "(83) 99343-7321" = Some "83993437321") by reflexivity.
  split; [exact H|].
  destruct (normalize_idempotent "(83) 99343-7321" "83993437321" H) as (H1 & H2 & _).
  split; [exact H1 | exact H2].
Defined.

(** C8 as written fails: the input has 12 digits, and the leading 0 is
    dropped from 11-digit inputs only. *)
Lemma normalize_trunk_mobile_rejected :
  normalize "083993437321" <> Some "83993437321".
Proof. vm_compute. discriminate. Qed.

(** C8, amended. [normalize("083993437321")] signals invalid (12 digits),
    and [normalize("123")] signals invalid. *)
Theorem normalize_examples :
  normalize "083993437321" = None /\ normalize "123" = None.
Proof. split; reflexivity. Qed.

(** The trunk rule on an input it does apply to. *)
Example normalize_trunk_landline :
  normalize "0 (83) 9934-3732" = Some "8399343732".
Proof. reflexivity. Qed.

(** ** Classification *)

(** The mobile branch of [validate] on a normalised input. *)
Lemma mobile_branch_of_validate (d : string) :
  normalize d = Some d ->
  Py.all_digits d = true ->
  String.length d = 11%nat ->
  String.get 2 d = Some "9"%char ->
  validate d =
    (true, TIPO_MOVEL,
     [ ("ddd", substring 0 2 d); ("prefixo", substring 3 4 d);
       ("sufixo", substring 7 4 d); ("raw_prefixo", substring 2 5 d) ])
  /\ substring 2 5 d = String "9" (substring 3 4 d)
  /\ String.length (substring 3 4 d) = 4%nat
  /\ String.length (substring 7 4 d) = 4%nat
  /\ Py.all_digits (substring 2 5 d) = true.
Proof.
  intros Hfix Hall Hlen H9.
  unfold validate. rewrite Hfix. clear Hfix.
  explode d Hlen. simpl in H9. injection H9 as ->.
  unfold Py.all_digits in *. simpl in Hall.
  use_digits. repeat split.
Qed.

(** C2. A canonical number of length 11 whose digit at index 2 is 9 is
    classified mobile: the area code is its first two digits, the raw
    prefix the five digits from index 2 (beginning with 9), the prefix
    that group without its leading 9, the suffix the last four digits. *)
Theorem validate_mobile (d : string) :
  canonical d ->
  String.length d = 11%nat ->
  String.get 2 d = Some "9"%char ->
  validate d =
    (true, TIPO_MOVEL,
     [ ("ddd", substring 0 2 d); ("prefixo", substring 3 4 d);
       ("sufixo", substring 7 4 d); ("raw_prefixo", substring 2 5 d) ])
  /\ substring 2 5 d = String "9" (substring 3 4 d)
  /\ String.length (substring 3 4 d) = 4%nat
  /\ String.length (substring 7 4 d) = 4%nat.
Proof.
  intros Hcan Hlen H9.
  pose proof (proj1 (canonical_shape_iff d) Hcan) as (Hall & _ & _).
  apply canonical_iff in Hcan.
  destruct (mobile_branch_of_validate d Hcan Hall Hlen H9) as (H1 & H2 & H3 & H4 & _).
  now repeat split.
Qed.

Lemma validate_mobile_witness :
  validate "83993437321" =
    (true, TIPO_MOVEL,
     [ ("ddd", "83"); ("prefixo", "9343"); ("sufixo", "7321");
       ("raw_prefixo", "99343") ]).
Proof.
  refine (proj1 (validate_mobile "83993437321" _ eq_refl eq_refl)).
  exists "(83) 99343-7321". reflexivity.
Defined.

(** *** A match consumes exactly the width of its pattern *)

Lemma str_app_assoc (a b c : string) : (a +:+ b) +:+ c = a +:+ (b +:+ c).
Proof.
  induction a as [|x a IH]; [reflexivity|].
  change (String x ((a +:+ b) +:+ c) = String x (a +:+ (b +:+ c))).
  now rewrite IH.
Qed.

Lemma str_length_app (a b : string) :
  String.length (a +:+ b) = (String.length a + String.length b)%nat.
Proof.
  induction a as [|x a IH]; [reflexivity|].
  change (S (String.length (a +:+ b)) = S (String.length a + String.length b)).
  now rewrite IH.
Qed.

Lemma match_rep_split (k : Re.cls) (n : nat) (s got rest : string) :
  Re.match_rep k n s = Some (got, rest) ->
  s = got +:+ rest /\ String.length got = n.
Proof.
  revert s got rest. induction n as [|n IH]; intros s got rest; simpl.
  - intros [= <- <-]. now split.
  - destruct s as [|c r]; [discriminate|].
    destruct (Re.cls_match k c); [|discriminate].
    destruct (Re.match_rep k n r) as [[g t]|] eqn:E; [|discriminate].
    intros [= <- <-]. destruct (IH _ _ _ E) as [-> <-]. now split.
Qed.

Lemma match_group_split (g : Re.group) (s got rest : string) :
  Re.match_group g s = Some (got, rest) ->
  s = got +:+ rest /\ String.length got = Re.group_width g.
Proof.
  revert s got rest. induction g as [|a g IH]; intros s got rest; simpl.
  - intros [= <- <-]. now split.
  - destruct (Re.match_atom a s) as [[g1 t1]|] eqn:Ea; [|discriminate].
    destruct (Re.match_group g t1) as [[g2 t2]|] eqn:Eg; [|discriminate].
    intros [= <- <-]. destruct (IH _ _ _ Eg) as [-> Hw].
    assert (Hs : s = g1 +:+ (g2 +:+ t2) /\ String.length g1 = Re.atom_width a).
    { destruct a as [k|k n]; unfold Re.match_atom in Ea; unfold Re.atom_width;
        now apply match_rep_split in Ea. }
    destruct Hs as [-> Hl]. split.
    + now rewrite str_app_assoc.
    + unfold Re.group_width in *. simpl. rewrite str_length_app. lia.
Qed.

Lemma re_match_split (p : Re.pattern) (s : string) (m : list string) :
  Re.re_match p s = Some m ->
  exists body rest,
    s = body +:+ rest /\ String.length body = Re.width p /\ Re.at_end rest = true.
Proof.
  revert s m. induction p as [|g p IH]; intros s m; simpl.
  - destruct (Re.at_end s) eqn:E; [|discriminate]. intros _.
    exists EmptyString, s. now repeat split.
  - destruct (Re.match_group g s) as [[g1 t1]|] eqn:Eg; [|discriminate].
    destruct (Re.re_match p t1) as [gs|] eqn:Ep; [|discriminate]. intros _.
    destruct (IH _ _ Ep) as (body & rest & -> & Hw & Hend).
    destruct (match_group_split _ _ _ _ Eg) as [-> Hl].
    exists (g1 +:+ body), rest. repeat split.
    + now rewrite str_app_assoc.
    + unfold Re.width in *. simpl. rewrite str_length_app. lia.
    + exact Hend.
Qed.

Lemma all_digits_app (a b : string) :
  Py.all_digits (a +:+ b) = Py.all_digits a && Py.all_digits b.
Proof.
  unfold Py.all_digits. induction a as [|c a IH]; [reflexivity|].
  change (Py.isdigit c && forallb Py.isdigit (list_ascii_of_string (a +:+ b)) =
          Py.isdigit c && forallb Py.isdigit (list_ascii_of_string a)
          && forallb Py.isdigit (list_ascii_of_string b)).
  now rewrite IH, andb_assoc.
Qed.

(** On a digit string the final newline that [$] tolerates cannot occur. *)
Lemma re_match_digits_width (p : Re.pattern) (s : string) (m : list string) :
  Py.all_digits s = true ->
  Re.re_match p s = Some m ->
  String.length s = Re.width p.
Proof.
  intros Hall Hm. destruct (re_match_split _ _ _ Hm) as (body & rest & -> & Hw & Hend).
  rewrite all_digits_app in Hall. apply andb_prop in Hall as [_ Hrest].
  rewrite str_length_app, Hw.
  destruct rest as [|c [|? ?]]; simpl in *; try discriminate; [lia|].
  apply Ascii.eqb_eq in Hend as ->. discriminate Hrest.
Qed.

(** [validate] depends on its input through [normalize] only. *)
Lemma validate_normalized (phone d : string) :
  normalize phone = Some d -> validate phone = validate d.
Proof.
  intros H. unfold validate. rewrite H.
  now rewrite (shape_normalize d (normalize_shape _ _ H)).
Qed.

(** A canonical number that is not an 11-digit string with 9 at index 2
    is rejected: the landline pattern is 10 characters wide but tried on
    11 digits only, the short one 9 wide but tried on 10 digits only. *)
Lemma validate_rejects_non_mobile (d : string) :
  canonical d ->
  ~ (String.length d = 11%nat /\ String.get 2 d = Some "9"%char) ->
  validate d = (false, FORMATO_NAO_RECONHECIDO, []).
Proof.
  intros Hcan Hnot.
  pose proof (proj1 (canonical_shape_iff d) Hcan) as (Hall & Hlen & _).
  apply canonical_iff in Hcan. unfold validate. rewrite Hcan.
  destruct d as [|c0 r]; [destruct Hlen; discriminate|].
  destruct (Nat.eq_dec (String.length (String c0 r)) 11) as [H11|H11].
  - rewrite H11. cbn [Nat.eqb].
    destruct (Py.char_is (String c0 r) 2 "9") eqn:H9.
    { apply char_is_get in H9. now destruct Hnot. }
    cbn [andb].
    destruct (Re.re_match PATTERN_landline (String c0 r)) as [m|] eqn:Hm; [|reflexivity].
    apply re_match_digits_width in Hm; [|exact Hall].
    rewrite H11 in Hm. discriminate Hm.
  - assert (H10 : String.length (String c0 r) = 10%nat) by lia.
    rewrite H10. cbn [Nat.eqb andb].
    destruct (Re.re_match PATTERN_short (String c0 r)) as [m|] eqn:Hm; [|reflexivity].
    apply re_match_digits_width in Hm; [|exact Hall].
    rewrite H10 in Hm. discriminate Hm.
Qed.

(** Every outcome of [validate]: a rejection with no parts, or a mobile
    number with its four parts. *)
Lemma validate_cases (phone : string) :
  (exists msg, validate phone = (false, msg, []))
  \/ (exists a p s,
        validate phone =
          (true, TIPO_MOVEL,
           [ ("ddd", a); ("prefixo", p); ("sufixo", s);
             ("raw_prefixo", String "9" p) ])
        /\ Py.all_digits (String "9" p) = true).
Proof.
  destruct (normalize phone) as [d|] eqn:Hn.
  2:{ left. exists FORMATO_INVALIDO. unfold validate. now rewrite Hn. }
  rewrite (validate_normalized _ _ Hn).
  pose proof (normalize_shape _ _ Hn) as Hshape.
  pose proof (shape_normalize _ Hshape) as Hfix.
  destruct (Nat.eq_dec (String.length d) 11) as [H11|H11].
  - destruct (option_eq_dec (String.get 2 d) (Some "9"%char)) as [H9|H9].
    + right. destruct Hshape as (Hall & _).
      destruct (mobile_branch_of_validate d Hfix Hall H11 H9) as (-> & E & _ & _ & Hd).
      rewrite E in *. eauto.
    + left. exists FORMATO_NAO_RECONHECIDO.
      apply validate_rejects_non_mobile; [now exists phone | tauto].
  - left. exists FORMATO_NAO_RECONHECIDO.
    apply validate_rejects_non_mobile; [now exists phone | tauto].
Qed.

(** No input is ever classified as a landline. *)
Lemma validate_never_landline (phone : string) (ok : bool) (partes : dict string) :
  validate phone <> (ok, TIPO_FIXO, partes).
Proof.
  destruct (validate_cases phone) as [[msg H]|(a & p & s & H & _)]; rewrite H.
  - intros [= <- -> <-].
    revert H. unfold validate.
    destruct (normalize phone) as [[|c d]|]; try discriminate.
    repeat match goal with
           | |- context [if ?b then _ else _] => destruct b
           | |- context [match ?o with Some _ => _ | None => _ end] => destruct o
           end; discriminate.
  - discriminate.
Qed.

(** C1, on the two shapes the claim covers: a 10-digit and an 11-digit
    canonical number whose digit at index 2 is 3 are both rejected, where
    the claim expects a landline. *)
Theorem validate_landline_rejected :
  canonical "1134567890"
  /\ validate "1134567890" = (false, FORMATO_NAO_RECONHECIDO, [])
  /\ canonical "11345678901"
  /\ validate "11345678901" = (false, FORMATO_NAO_RECONHECIDO, []).
Proof.
  repeat split; try reflexivity.
  - now exists "1134567890".
  - now exists "11345678901".
Qed.

(** ** Carrier resolution *)

Lemma RULES_read :
  read_dict (read_dict read_carriers) OPERATOR_PREFIXES = Some RULES.
Proof. reflexivity. Qed.

Lemma dict_find_read {A B : Type} (f : A -> option B) (d : dict A) (d' : dict B)
  (k : string) :
  read_dict f d = Some d' ->
  match dict_find d k with
  | Some a => exists b, f a = Some b /\ dict_find d' k = Some b
  | None => dict_find d' k = None
  end.
Proof.
  revert d'. induction d as [|[k0 a] d IH]; intros d'; simpl.
  - now intros [= <-].
  - destruct (f a) as [b|] eqn:Ef; [|discriminate].
    destruct (read_dict f d) as [rest|] eqn:Er; [|discriminate].
    intros [= <-]. simpl. destruct (String.eqb k0 k).
    + now exists b.
    + now apply IH.
Qed.

Lemma ints_two (a b : string) (bounds : list Z) :
  ints [a; b] = Ok bounds ->
  exists lo hi, Py.int a = Some lo /\ Py.int b = Some hi /\ bounds = [lo; hi].
Proof.
  simpl. destruct (Py.int a) as [lo|]; [|discriminate].
  destruct (Py.int b) as [hi|]; [|discriminate].
  simpl. intros [= <-]. now exists lo, hi.
Qed.

(** The inner loop returns the carrier exactly when one of its
    specifications matches. *)
Lemma scan_prefixos_read (prefixo operadora : string) (prefixos : list string)
  (rules : list (string * prefix_spec)) :
  Py.int (Py.take 2 prefixo) = Some (first_two_value prefixo) ->
  read_specs operadora prefixos = Some rules ->
  scan_prefixos prefixo operadora prefixos = Ok (first_match prefixo rules)
  /\ (first_match prefixo rules = None \/ first_match prefixo rules = Some operadora).
Proof.
  intros Hint. revert rules.
  induction prefixos as [|pref rest IH]; intros rules Hread.
  - injection Hread as <-. split; [reflexivity | now left].
  - cbn [read_specs] in Hread. cbn [scan_prefixos]. unfold read_spec in Hread.
    destruct (Py.contains "-" pref).
    + destruct (Py.split "-" pref) as [|a [|b [|? ?]]]; try discriminate Hread.
      cbn [ints bind].
      destruct (Py.int a) as [lo|]; [|discriminate Hread].
      destruct (Py.int b) as [hi|]; [|discriminate Hread].
      destruct (read_specs operadora rest) as [rules'|]; [|discriminate Hread].
      injection Hread as <-. cbn [bind]. rewrite Hint.
      unfold first_match. cbn [find snd spec_matches].
      destruct ((lo <=? first_two_value prefixo) && (first_two_value prefixo <=? hi))%Z.
      * split; [reflexivity | now right].
      * now apply IH.
    + destruct (read_specs operadora rest) as [rules'|]; [|discriminate Hread].
      injection Hread as <-.
      unfold first_match, Py.startswith. cbn [find snd spec_matches].
      destruct (String.prefix pref prefixo).
      * split; [reflexivity | now right].
      * now apply IH.
Qed.

Lemma first_match_app (prefixo : string) (a b : list (string * prefix_spec)) :
  first_match prefixo (a ++ b)%list =
  match first_match prefixo a with
  | Some op => Some op
  | None => first_match prefixo b
  end.
Proof.
  unfold first_match. induction a as [|r a IH]; simpl; [reflexivity|].
  now destruct (spec_matches prefixo (snd r)).
Qed.

(** The outer loop returns the first carrier, in table order, that has a
    matching specification. *)
Lemma scan_operadores_read (prefixo : string) (operadores : dict (list string))
  (rules : list (string * prefix_spec)) :
  Py.int (Py.take 2 prefixo) = Some (first_two_value prefixo) ->
  read_carriers operadores = Some rules ->
  scan_operadores prefixo operadores = Ok (first_match prefixo rules).
Proof.
  intros Hint. revert rules.
  induction operadores as [|[operadora prefixos] rest IH]; intros rules; simpl.
  - now intros [= <-].
  - destruct (read_specs operadora prefixos) as [here|] eqn:Eh; [|discriminate].
    destruct (read_carriers rest) as [later|] eqn:El; [|discriminate].
    intros [= <-]. rewrite first_match_app.
    destruct (scan_prefixos_read prefixo operadora prefixos here Hint Eh) as [-> _].
    simpl. destruct (first_match prefixo here); [reflexivity | now apply IH].
Qed.

(** *** [int] on the first two digits *)

Lemma int_digits_digit (c : ascii) (r : string) (acc : Z) (prev : bool) :
  Py.isdigit c = true ->
  Py.int_digits (String c r) acc prev = Py.int_digits r (10 * acc + Py.digit_val c) true.
Proof. intros H. simpl. now rewrite H. Qed.

Lemma int_starts_with_digit (c : ascii) (r : string) :
  Py.isdigit c = true ->
  Py.int (String c r) = Py.int_digits (String c r) 0 false.
Proof.
  intros H.
  destruct c as [[] [] [] [] [] [] [] []]; vm_compute in H; try discriminate H;
    reflexivity.
Qed.

Lemma int_first_two (prefixo : string) :
  Py.all_digits prefixo = true ->
  prefixo <> EmptyString ->
  Py.int (Py.take 2 prefixo) = Some (first_two_value prefixo).
Proof.
  unfold Py.all_digits. intros Hall Hne.
  destruct prefixo as [|a [|b r]]; [now contradict Hne| |].
  - simpl in Hall. apply andb_prop in Hall as [Ha _].
    change (Py.take 2 (String a EmptyString)) with (String a EmptyString).
    rewrite (int_starts_with_digit a _ Ha), (int_digits_digit a _ _ _ Ha).
    unfold first_two_value. simpl. f_equal.
  - simpl in Hall. apply andb_prop in Hall as [Ha Hb].
    apply andb_prop in Hb as [Hb _].
    change (Py.take 2 (String a (String b r))) with (String a (String b EmptyString)).
    rewrite (int_starts_with_digit a _ Ha), (int_digits_digit a _ _ _ Ha),
      (int_digits_digit b _ _ _ Hb).
    unfold first_two_value. simpl Py.int_digits. f_equal.
Qed.

Lemma RULES_no_empty_family (ddd : string) (families : dict (list (string * prefix_spec))) :
  dict_find RULES ddd = Some families ->
  dict_find families EmptyString = None.
Proof.
  unfold RULES. cbn [dict_find].
  destruct (String.eqb "11" ddd); [intros H; now injection H as <-|].
  destruct (String.eqb "83" ddd); [intros H; now injection H as <-|discriminate].
Qed.

(** [get_operator_by_prefix] on a digit string never raises, and computes
    [resolve]. *)
Lemma get_operator_by_prefix_digits (ddd prefixo tipo : string) :
  Py.all_digits prefixo = true ->
  get_operator_by_prefix ddd prefixo tipo = Ok (resolve ddd prefixo tipo).
Proof.
  intros Hall. unfold get_operator_by_prefix, resolve.
  pose proof (dict_find_read _ _ _ ddd RULES_read) as H1.
  destruct (dict_find OPERATOR_PREFIXES ddd) as [ddd_data|].
  2:{ rewrite H1. now case_decide. }
  destruct H1 as (families & Hread & HR). rewrite HR.
  destruct (String.eqb_spec tipo TIPO_MOVEL) as [->|Hne].
  2:{ now rewrite decide_False. }
  rewrite decide_True by reflexivity.
  replace (match prefixo with
           | EmptyString => EmptyString
           | String c _ => String c EmptyString
           end) with (Py.take 1 prefixo) by now destruct prefixo.
  pose proof (dict_find_read _ _ _ (Py.take 1 prefixo) Hread) as H2.
  destruct (dict_find ddd_data (Py.take 1 prefixo)) as [operadores|].
  2:{ now rewrite H2. }
  destruct H2 as (rules & Hrules & Hfam). rewrite Hfam.
  assert (Hne : prefixo <> EmptyString).
  { intros ->. simpl in Hfam.
    now rewrite (RULES_no_empty_family _ _ HR) in Hfam. }
  rewrite (scan_operadores_read _ _ _ (int_first_two _ Hall Hne) Hrules).
  simpl. now destruct (first_match prefixo rules).
Qed.

(** C6. [get_operator_by_prefix] answers "Desconhecida" whenever the kind
    is not mobile, or the area code is absent from the table, or the
    family of the first character of the raw prefix is absent; otherwise,
    on a raw prefix made of digits, it answers the carrier of the first
    rule in table order whose specification matches (an exact one when the
    raw prefix starts with it, a range when the integer value of the first
    two digits lies within it), and "Desconhecida" when none does. *)
Theorem get_operator_by_prefix_resolves (ddd prefixo tipo : string) :
  (tipo <> TIPO_MOVEL ->
   get_operator_by_prefix ddd prefixo tipo = Ok DESCONHECIDA)
  /\ (dict_find OPERATOR_PREFIXES ddd = None ->
      get_operator_by_prefix ddd prefixo tipo = Ok DESCONHECIDA)
  /\ (forall families,
        dict_find OPERATOR_PREFIXES ddd = Some families ->
        dict_find families (Py.take 1 prefixo) = None ->
        get_operator_by_prefix ddd prefixo tipo = Ok DESCONHECIDA)
  /\ (Py.all_digits prefixo = true ->
      get_operator_by_prefix ddd prefixo tipo = Ok (resolve ddd prefixo tipo)).
Proof.
  unfold get_operator_by_prefix. repeat split.
  - intros Hne%String.eqb_neq. rewrite Hne.
    now destruct (dict_find OPERATOR_PREFIXES ddd).
  - now intros ->.
  - intros families -> Hnone.
    replace (match prefixo with
             | EmptyString => EmptyString
             | String c _ => String c EmptyString
             end) with (Py.take 1 prefixo) by now destruct prefixo.
    rewrite Hnone. now destruct (String.eqb tipo TIPO_MOVEL).
  - apply get_operator_by_prefix_digits.
Qed.

Lemma get_operator_by_prefix_resolves_witness :
  get_operator_by_prefix "11" "96123" TIPO_FIXO = Ok DESCONHECIDA
  /\ get_operator_by_prefix "21" "96123" TIPO_MOVEL = Ok DESCONHECIDA
  /\ get_operator_by_prefix "11" "76123" TIPO_MOVEL = Ok DESCONHECIDA
  /\ get_operator_by_prefix "11" "94123" TIPO_MOVEL = Ok "TIM"
  /\ get_operator_by_prefix "83" "3301" TIPO_MOVEL = Ok "VIVO"
  /\ get_operator_by_prefix "83" "99343" TIPO_MOVEL = Ok DESCONHECIDA.
Proof.
  split; [|split; [|split; [|split; [|split]]]].
  - refine (proj1 (get_operator_by_prefix_resolves "11" "96123" TIPO_FIXO) _).
    intros H. discriminate H.
  - exact (proj1 (proj2 (get_operator_by_prefix_resolves "21" "96123" TIPO_MOVEL))
             eq_refl).
  - refine (proj1 (proj2 (proj2 (get_operator_by_prefix_resolves "11" "76123" TIPO_MOVEL)))
              _ eq_refl eq_refl).
  - exact (proj2 (proj2 (proj2 (get_operator_by_prefix_resolves "11" "94123" TIPO_MOVEL)))
             eq_refl).
  - exact (proj2 (proj2 (proj2 (get_operator_by_prefix_resolves "83" "3301" TIPO_MOVEL)))
             eq_refl).
  - exact (proj2 (proj2 (proj2 (get_operator_by_prefix_resolves "83" "99343" TIPO_MOVEL)))
             eq_refl).
Defined.

(** Outside digit strings the range test can raise: [int("3x")] is a
    [ValueError]. *)
Example get_operator_by_prefix_raises :
  get_operator_by_prefix "11" "3x" TIPO_MOVEL = Raise ValueError.
Proof. reflexivity. Qed.

(** ** The cache and the lookup service *)

(** *** The digest *)

(** The test suite of RFC 1321. *)
Example md5_rfc1321 :
  MD5.hexdigest (Py.encode "") = "d41d8cd98f00b204e9800998ecf8427e"
  /\ MD5.hexdigest (Py.encode "a") = "0cc175b9c0f1b6a831c399e269772661"
  /\ MD5.hexdigest (Py.encode "abc") = "900150983cd24fb0d6963f7d28e17f72"
  /\ MD5.hexdigest (Py.encode "message digest") = "f96b697d7cb7938d525a2f31aaf161d0"
  /\ MD5.hexdigest
       (Py.encode "12345678901234567890123456789012345678901234567890123456789012345678901234567890")
     = "57edf4a22be3c955ac49da2e2107b67a".
Proof. vm_compute. repeat split. Qed.

(** [get_key] is not injective: two inputs that differ in one character
    and have the same digest.  This is why the statements below speak of
    the file of a key, or of two digests that differ, and not of the
    input alone. *)
Example get_key_collision :
  let a := "TEXTCOLLBYfGiJUETHQ4hAcKSMd5zYpgqf1YRDhkmxHkhPWptrkoyz28wnI9V0aHeAuaKnak" in
  let b := "TEXTCOLLBYfGiJUETHQ4hEcKSMd5zYpgqf1YRDhkmxHkhPWptrkoyz28wnI9V0aHeAuaKnak" in
  a <> b /\ get_key a = get_key b.
Proof. split; [discriminate | vm_compute; reflexivity]. Qed.

(** *** [CacheManager.load] *)


Lemma load_absent (now : Q) (phone : string) (files : gmap string PhoneInfo) :
  files !! get_key phone = None ->
  load now phone files = (None, files).
Proof. intros H. unfold load. now rewrite H. Qed.


Lemma load_fresh (now : Q) (phone : string) (files : gmap string PhoneInfo)
  (data : PhoneInfo) :
  files !! get_key phone = Some data ->
  expired now data = false ->
  load now phone files = (Some data, files).
Proof. intros H E. unfold load. now rewrite H, E. Qed.

(** After a miss the file of the key is gone, whichever way it missed. *)
Lemma load_miss (now : Q) (phone : string) (files files' : gmap string PhoneInfo) :
  load now phone files = (None, files') ->
  files' = delete (get_key phone) files.
Proof.
  unfold load. destruct (files !! get_key phone) as [data|] eqn:E.
  - destruct (expired now data); [|discriminate]. now intros [= <-].
  - intros [= <-]. symmetry. now apply delete_id.
Qed.

(** *** [PhoneLookup.lookup], branch by branch *)

Lemma compose_accepted (e : Env) (phone tipo0 : string) (partes : dict string) :
  validate phone = (true, tipo0, partes) ->
  exists info,
    compose e phone tipo0 partes = Ok info
    /\ numero info = phone
    /\ valido info = true
    /\ tipo info = TIPO_MOVEL
    /\ consulta_ts info = int_of_time (clock_stamp e).
Proof.
  intros Hv.
  destruct (validate_cases phone) as [[msg H]|(a & p & s & H & Hd)];
    rewrite H in Hv; [discriminate Hv|].
  injection Hv as <- <-. unfold compose.
  cbn [dict_item dict_get dict_find String.eqb Ascii.eqb Bool.eqb bind].
  destruct (api_reply e) as [x|]; cbn [bind].
  - eexists. split; [reflexivity|]. now repeat split.
  - rewrite (get_operator_by_prefix_digits a _ TIPO_MOVEL Hd). cbn [bind].
    eexists. split; [reflexivity|]. now repeat split.
Qed.

Lemma lookup_hit (e : Env) (phone : string) (files files' : gmap string PhoneInfo)
  (data : PhoneInfo) :
  load (clock_load e) phone files = (Some data, files') ->
  lookup e phone files = (Ok data, files', [CacheHit phone]).
Proof. intros H. unfold lookup. now rewrite H. Qed.

Lemma lookup_miss_rejected (e : Env) (phone : string)
  (files files' : gmap string PhoneInfo) :
  load (clock_load e) phone files = (None, files') ->
  accepts phone = false ->
  lookup e phone files = (Ok (invalid_info phone), files', []).
Proof.
  intros H Ha. unfold lookup. rewrite H. unfold accepts in Ha.
  destruct (validate phone) as [[ok t] partes]. simpl in Ha. now rewrite Ha.
Qed.

Lemma lookup_miss_accepted (e : Env) (phone : string)
  (files files' : gmap string PhoneInfo) :
  load (clock_load e) phone files = (None, files') ->
  accepts phone = true ->
  exists info,
    lookup e phone files = (Ok info, save phone info files', [ApiRequest phone])
    /\ numero info = phone
    /\ valido info = true
    /\ consulta_ts info = int_of_time (clock_stamp e).
Proof.
  intros H Ha. unfold lookup. rewrite H. unfold accepts in Ha.
  destruct (validate phone) as [[ok t] partes] eqn:Hv. simpl in Ha. subst ok.
  destruct (compose_accepted e phone t partes Hv) as (info & -> & Hn & Hok & _ & Hts).
  simpl. now exists info.
Qed.

(** On a string of code points below 256 [lookup] never raises, and the
    record it returns carries a [numero] whose digest is the key that
    was consulted. *)
Lemma lookup_total (e : Env) (phone : string) (files : gmap string PhoneInfo) :
  filed_by_numero files ->
  exists info files' trace,
    lookup e phone files = (Ok info, files', trace)
    /\ get_key (numero info) = get_key phone
    /\ filed_by_numero files'.
Proof.
  intros Hinv. destruct (load (clock_load e) phone files) as [[data|] files'] eqn:Hl.
  - exists data, files', [CacheHit phone]. split; [now apply lookup_hit|].
    unfold load in Hl. destruct (files !! get_key phone) as [d|] eqn:E; [|discriminate].
    destruct (expired (clock_load e) d); [discriminate|]. injection Hl as <- <-.
    split; [symmetry; now apply Hinv | exact Hinv].
  - pose proof (load_miss _ _ _ _ Hl) as ->.
    assert (Hdel : filed_by_numero (delete (get_key phone) files)).
    { intros k r [_ Hk]%lookup_delete_Some. now apply Hinv. }
    destruct (accepts phone) eqn:Ha.
    + destruct (lookup_miss_accepted e phone _ _ Hl Ha) as (info & -> & Hn & _).
      exists info, (save phone info (delete (get_key phone) files)), [ApiRequest phone].
      split; [reflexivity|]. split; [now rewrite Hn|].
      intros k r. unfold save. rewrite lookup_insert. case_decide as Hk.
      * intros [= <-]. now rewrite Hn.
      * apply Hdel.
    + rewrite (lookup_miss_rejected e phone _ _ Hl Ha).
      exists (invalid_info phone), (delete (get_key phone) files), [].
      now repeat split.
Qed.

Lemma filed_by_numero_empty : filed_by_numero ∅.
Proof. intros k r H. now rewrite lookup_empty in H. Qed.

(** [lookup] reads and writes the file of its own key only. *)
Lemma lookup_frame (e : Env) (phone : string) (files : gmap string PhoneInfo)
  (k : string) :
  k <> get_key phone ->
  (lookup e phone files).1.2 !! k = files !! k.
Proof.
  intros Hk. destruct (load (clock_load e) phone files) as [[data|] files'] eqn:Hl.
  - rewrite (lookup_hit _ _ _ _ _ Hl). simpl.
    unfold load in Hl. destruct (files !! get_key phone) as [d|]; [|discriminate].
    destruct (expired (clock_load e) d); [discriminate|]. now injection Hl as _ <-.
  - pose proof (load_miss _ _ _ _ Hl) as ->.
    destruct (accepts phone) eqn:Ha.
    + destruct (lookup_miss_accepted e phone _ _ Hl Ha) as (info & -> & _).
      simpl. unfold save. rewrite lookup_insert_ne by congruence.
      now apply lookup_delete_ne.
    + rewrite (lookup_miss_rejected e phone _ _ Hl Ha). simpl.
      now apply lookup_delete_ne.
Qed.

Lemma lookup_only_accepted (e : Env) (phone : string) (files : gmap string PhoneInfo) :
  only_accepted files -> only_accepted (lookup e phone files).1.2.
Proof.
  intros Hinv. destruct (load (clock_load e) phone files) as [[data|] files'] eqn:Hl.
  - rewrite (lookup_hit _ _ _ _ _ Hl). simpl.
    unfold load in Hl. destruct (files !! get_key phone) as [d|]; [|discriminate].
    destruct (expired (clock_load e) d); [discriminate|]. now injection Hl as _ <-.
  - pose proof (load_miss _ _ _ _ Hl) as ->.
    assert (Hdel : only_accepted (delete (get_key phone) files)).
    { intros k r [_ Hk]%lookup_delete_Some. exact (Hinv _ _ Hk). }
    destruct (accepts phone) eqn:Ha.
    + destruct (lookup_miss_accepted e phone _ _ Hl Ha) as (info & -> & Hn & Hok & _).
      simpl. intros k r. unfold save. rewrite lookup_insert. case_decide.
      * intros [= <-]. now rewrite Hn.
      * apply Hdel.
    + now rewrite (lookup_miss_rejected e phone _ _ Hl Ha).
Qed.

(** Under both invariants a rejected input has no file, unless its digest
    is that of an accepted one. *)
Lemma rejected_not_cached (phone : string) (files : gmap string PhoneInfo) :
  filed_by_numero files ->
  only_accepted files ->
  accepts phone = false ->
  (forall other, get_key other = get_key phone -> other = phone) ->
  files !! get_key phone = None.
Proof.
  intros Hf Ho Ha Hinj. destruct (files !! get_key phone) as [r|] eqn:E; [|reflexivity].
  destruct (Ho _ _ E) as [_ Hacc]. apply Hf in E.
  rewrite (Hinj (numero r)) in Hacc by congruence. congruence.
Qed.

(** On a string of code points below 256 that validation rejects, and
    that has no file in the cache, [lookup] returns a record with
    [valido = false], the invalid kind and empty area code, prefix and
    suffix; the cache after the call is the cache before it. *)
Lemma lookup_rejected_atomic (e : Env) (phone : string)
  (files : gmap string PhoneInfo) :
  accepts phone = false ->
  files !! get_key phone = None ->
  exists info,
    lookup e phone files = (Ok info, files, [])
    /\ valido info = false
    /\ tipo info = TIPO_INVALIDO
    /\ ddd info = EmptyString
    /\ prefixo info = EmptyString
    /\ sufixo info = EmptyString
    /\ numero info = phone.
Proof.
  intros Ha Hnone. exists (invalid_info phone).
  rewrite (lookup_miss_rejected e phone files files); auto using load_absent.
  now repeat split.
Qed.









(** The replay at the edge of the window: a first call stamped
    1700000000.5 stores [consulta_ts = 1700000000]; a second call exactly
    86400 seconds after that value is still served from the cache, and
    the reply the portability service would give is not asked for. *)
Example replay_at_the_edge :
  exists r1 files1,
    lookup (mkEnv 1700000000 None (1700000000 + (1 # 2))) "83993437321" ∅ =
      (Ok r1, files1, [ApiRequest "83993437321"])
    /\ consulta_ts r1 = 1700000000%Z
    /\ lookup (mkEnv (1700000000 + 86400) (Some (mkApiData "X" "Y" "ZZ" true)) 0)
               "83993437321" files1 =
         (Ok r1, files1, [CacheHit "83993437321"]).
Proof.
  assert (A : ∅ !! get_key "83993437321" = (None : option PhoneInfo))
    by apply lookup_empty.
  destruct (lookup_miss_accepted (mkEnv 1700000000 None (1700000000 + (1 # 2)))
              "83993437321" ∅ ∅ (load_absent _ _ _ A) eq_refl)
    as (r1 & H1 & _ & _ & Hts).
  exists r1, (save "83993437321" r1 ∅). split; [exact H1|].
  split; [rewrite Hts; reflexivity|].
  apply lookup_hit, (load_fresh _ _ _ r1); [apply lookup_insert_eq|].
  unfold expired. rewrite Hts. reflexivity.
Qed.




(** * Further properties of the program *)

(** ** Validation *)

Lemma sub_nondigits_app (a b : string) :
  Py.sub_nondigits (a +:+ b) = Py.sub_nondigits a +:+ Py.sub_nondigits b.
Proof.
  induction a as [|c a IH]; [reflexivity|].
  change (String c a +:+ b) with (String c (a +:+ b)). simpl.
  destruct (Py.isdigit c); [|exact IH].
  change (String c (Py.sub_nondigits a) +:+ Py.sub_nondigits b)
    with (String c (Py.sub_nondigits a +:+ Py.sub_nondigits b)).
  now rewrite IH.
Qed.

(** [normalize] looks at the digits only: a character that is not a digit
    can be inserted anywhere without changing the answer. *)
Theorem normalize_ignores_separator (a b : string) (c : ascii) :
  Py.isdigit c = false ->
  normalize (a +:+ String c b) = normalize (a +:+ b).
Proof.
  intros Hc. unfold normalize. rewrite !sub_nondigits_app. simpl. now rewrite Hc.
Qed.

Lemma normalize_ignores_separator_witness :
  normalize ("83" +:+ String "-" "993437321") = normalize ("83" +:+ "993437321").
Proof. exact (normalize_ignores_separator "83" "993437321" "-" eq_refl). Defined.

(** An accepted input, with the parts [validate] hands out. *)
Lemma validate_accepted (phone : string) :
  accepts phone = true ->
  exists d,
    normalize phone = Some d
    /\ mobile_shape d
    /\ Py.all_digits d = true
    /\ validate phone =
         (true, TIPO_MOVEL,
          [ ("ddd", substring 0 2 d); ("prefixo", substring 3 4 d);
            ("sufixo", substring 7 4 d); ("raw_prefixo", substring 2 5 d) ]).
Proof.
  unfold accepts. intros Ha.
  destruct (normalize phone) as [d|] eqn:Hn.
  2:{ unfold validate in Ha. now rewrite Hn in Ha. }
  rewrite (validate_normalized _ _ Hn) in *.
  pose proof (normalize_shape _ _ Hn) as Hshape.
  pose proof (shape_normalize _ Hshape) as Hfix.
  exists d. split; [reflexivity|].
  destruct (Nat.eq_dec (String.length d) 11) as [H11|H11];
    [destruct (option_eq_dec (String.get 2 d) (Some "9"%char)) as [H9|H9]|].
  - destruct Hshape as (Hall & _).
    destruct (mobile_branch_of_validate d Hfix Hall H11 H9) as (Hv & _).
    now repeat split.
  - rewrite validate_rejects_non_mobile in Ha; [discriminate Ha|now exists phone|tauto].
  - rewrite validate_rejects_non_mobile in Ha; [discriminate Ha|now exists phone|tauto].
Qed.

(** Acceptance and the mobile shape, for use in other proofs. *)
Lemma accepts_shape (phone : string) :
  accepts phone = true -> exists d, normalize phone = Some d /\ mobile_shape d.
Proof.
  intros Ha. destruct (validate_accepted phone Ha) as (d & Hn & Hm & _). eauto.
Qed.

Lemma accepts_shape_intro (phone : string) :
  (exists d, normalize phone = Some d /\ mobile_shape d) -> accepts phone = true.
Proof.
  intros (d & Hn & H11 & H9). unfold accepts.
  rewrite (validate_normalized _ _ Hn).
  pose proof (normalize_shape _ _ Hn) as Hshape.
  destruct (mobile_branch_of_validate d (shape_normalize _ Hshape)
              (proj1 Hshape) H11 H9) as (-> & _).
  reflexivity.
Qed.

(** [validate] accepts an input exactly when its digits, after the trunk
    rule, are 11 with a 9 at index 2; in particular no input of 10 digits
    is ever accepted. *)
Theorem accepts_iff_mobile_shape (phone : string) :
  accepts phone = true <-> exists d, normalize phone = Some d /\ mobile_shape d.
Proof.
  split; [apply accepts_shape | apply accepts_shape_intro].
Qed.

Lemma accepts_iff_mobile_shape_witness :
  accepts "(83) 99343-7321" = true
  /\ exists d, normalize "0 83 3343-7321" = Some d /\ ~ mobile_shape d.
Proof.
  split.
  - apply (accepts_iff_mobile_shape "(83) 99343-7321").
    exists "83993437321". repeat split.
  - exists "8333437321". split; [reflexivity|]. intros [H _]. discriminate H.
Defined.

(** A rejection carries no parts, and its message tells the two causes
    apart: "Formato inválido" when normalisation fails, "Formato não
    reconhecido" when the digits are not those of a mobile number. *)
Theorem validate_rejection_reason (phone : string) :
  accepts phone = false ->
  (normalize phone = None /\ validate phone = (false, FORMATO_INVALIDO, []))
  \/ (exists d, normalize phone = Some d /\ ~ mobile_shape d
                /\ validate phone = (false, FORMATO_NAO_RECONHECIDO, [])).
Proof.
  intros Ha. destruct (normalize phone) as [d|] eqn:Hn.
  - right. exists d. split; [reflexivity|].
    assert (Hnot : ~ mobile_shape d).
    { intros Hm. assert (accepts phone = true) by (apply accepts_shape_intro; eauto).
      congruence. }
    split; [exact Hnot|].
    rewrite (validate_normalized _ _ Hn).
    apply validate_rejects_non_mobile; [now exists phone | exact Hnot].
  - left. split; [reflexivity|]. unfold validate. now rewrite Hn.
Qed.

Lemma validate_rejection_reason_witness :
  validate "123" = (false, FORMATO_INVALIDO, [])
  /\ validate "(11) 3456-7890" = (false, FORMATO_NAO_RECONHECIDO, []).
Proof.
  split.
  - destruct (validate_rejection_reason "123" eq_refl) as [[_ H]|(d & Hn & _)];
      [exact H | discriminate Hn].
  - destruct (validate_rejection_reason "(11) 3456-7890" eq_refl)
      as [[Hn _]|(d & _ & _ & H)]; [discriminate Hn | exact H].
Defined.

(** The parts of an accepted number put its digits back together: area
    code, raw prefix and suffix are 2, 5 and 4 digits whose concatenation
    is the normalised number, and the prefix is the raw prefix without
    its leading 9. *)
Theorem validate_parts_rebuild (phone tipo0 : string) (partes : dict string) :
  validate phone = (true, tipo0, partes) ->
  exists d area prefix suffix,
    normalize phone = Some d
    /\ tipo0 = TIPO_MOVEL
    /\ partes = [ ("ddd", area); ("prefixo", prefix); ("sufixo", suffix);
                  ("raw_prefixo", String "9" prefix) ]
    /\ area +:+ String "9" prefix +:+ suffix = d
    /\ String.length area = 2%nat
    /\ String.length prefix = 4%nat
    /\ String.length suffix = 4%nat.
Proof.
  intros Hv.
  assert (Ha : accepts phone = true) by (unfold accepts; now rewrite Hv).
  destruct (validate_accepted phone Ha) as (d & Hn & [H11 H9] & Hall & Hv').
  rewrite Hv in Hv'. injection Hv' as -> ->.
  exists d, (substring 0 2 d), (substring 3 4 d), (substring 7 4 d).
  explode d H11. simpl in H9. injection H9 as ->.
  now repeat split.
Qed.

Lemma validate_parts_rebuild_witness :
  exists d area prefix suffix,
    normalize "(83) 99343-7321" = Some d
    /\ TIPO_MOVEL = TIPO_MOVEL
    /\ [ ("ddd", "83"); ("prefixo", "9343"); ("sufixo", "7321");
         ("raw_prefixo", "99343") ]
       = [ ("ddd", area); ("prefixo", prefix); ("sufixo", suffix);
           ("raw_prefixo", String "9" prefix) ]
    /\ area +:+ String "9" prefix +:+ suffix = d
    /\ String.length area = 2%nat
    /\ String.length prefix = 4%nat
    /\ String.length suffix = 4%nat.
Proof.
  exact (validate_parts_rebuild "(83) 99343-7321" TIPO_MOVEL _ eq_refl).
Defined.

(** ** Carrier resolution on its own *)

(** A family made of exact specifications only never raises. *)
Lemma scan_prefixos_exact (prefixo operadora : string) (prefixos : list string) :
  forallb (fun pref => negb (Py.contains "-" pref)) prefixos = true ->
  exists found, scan_prefixos prefixo operadora prefixos = Ok found.
Proof.
  induction prefixos as [|pref rest IH]; simpl; [eauto|].
  intros [Hp Hr]%andb_prop. apply negb_true_iff in Hp. rewrite Hp.
  destruct (Py.startswith prefixo pref); eauto.
Qed.

Lemma scan_operadores_exact (prefixo : string) (operadores : dict (list string)) :
  forallb (fun entry => forallb (fun pref => negb (Py.contains "-" pref)) (snd entry))
          operadores = true ->
  exists found, scan_operadores prefixo operadores = Ok found.
Proof.
  induction operadores as [|[operadora prefixos] rest IH]; simpl; [eauto|].
  intros [Hp Hr]%andb_prop.
  destruct (scan_prefixos_exact prefixo operadora prefixos Hp) as [found ->].
  simpl. destruct found; eauto.
Qed.

(** A range specification at the head of the inner loop. *)
Lemma scan_prefixos_range (raw operadora pref : string) (rest : list string)
  (lo hi : Z) :
  read_spec pref = Some (Between lo hi) ->
  scan_prefixos raw operadora (pref :: rest) =
  match Py.int (Py.take 2 raw) with
  | Some n =>
      if ((lo <=? n) && (n <=? hi))%Z then Ok (Some operadora)
      else scan_prefixos raw operadora rest
  | None => Raise ValueError
  end.
Proof.
  unfold read_spec. cbn [scan_prefixos]. intros Hread.
  destruct (Py.contains "-" pref); [|discriminate Hread].
  destruct (Py.split "-" pref) as [|a [|b [|? ?]]]; try discriminate Hread.
  cbn [ints bind].
  destruct (Py.int a) as [lo'|]; [|discriminate Hread].
  destruct (Py.int b) as [hi'|]; [|discriminate Hread].
  injection Hread as -> ->. reflexivity.
Qed.

(** [get_operator_by_prefix] raises in one situation only: a mobile kind,
    an area code of the table, a raw prefix that begins with 3, and first
    two characters that [int] does not read.  The exception is then
    [ValueError]. *)
Theorem get_operator_by_prefix_raises_iff (area raw tipo0 : string) (x : exn) :
  get_operator_by_prefix area raw tipo0 = Raise x <->
  x = ValueError
  /\ tipo0 = TIPO_MOVEL
  /\ (area = "11" \/ area = "83")
  /\ Py.take 1 raw = "3"
  /\ Py.int (Py.take 2 raw) = None.
Proof.
  unfold get_operator_by_prefix, OPERATOR_PREFIXES. cbn [dict_find].
  assert (Hfam : forall fams : dict (dict (list string)),
    forall nine three,
      fams = [("9", nine); ("3", three)] ->
      forallb (fun entry => forallb (fun pref => negb (Py.contains "-" pref)) (snd entry))
              nine = true ->
      (forall n, Py.int (Py.take 2 raw) = Some n ->
                 exists found, scan_operadores raw three = Ok found) ->
      (Py.int (Py.take 2 raw) = None -> scan_operadores raw three = Raise ValueError) ->
      (if String.eqb tipo0 TIPO_MOVEL
       then match dict_find fams match raw with
                                 | EmptyString => EmptyString
                                 | String c _ => String c EmptyString
                                 end with
            | Some operadores =>
                let* found := scan_operadores raw operadores in
                match found with Some op => Ok op | None => Ok DESCONHECIDA end
            | None => Ok DESCONHECIDA
            end
       else Ok DESCONHECIDA) = Raise x <->
      x = ValueError /\ tipo0 = TIPO_MOVEL /\ Py.take 1 raw = "3"
      /\ Py.int (Py.take 2 raw) = None).
  { intros fams nine three -> Hnine Hsome Hnone.
    destruct (String.eqb_spec tipo0 TIPO_MOVEL) as [->|Ht].
    2:{ split; [discriminate|]. intros (_ & E & _). contradiction. }
    destruct raw as [|c rest].
    { split; [discriminate|]. intros (_ & _ & E & _). discriminate E. }
    cbn [dict_find String.eqb].
    destruct (Ascii.eqb_spec "9" c) as [<-|H9].
    { cbn [andb String.eqb].
      destruct (scan_operadores_exact (String "9" rest) nine Hnine) as [found ->].
      split; [destruct found; discriminate|]. intros (_ & _ & E & _). discriminate E. }
    cbn [andb dict_find String.eqb].
    destruct (Ascii.eqb_spec "3" c) as [<-|H3].
    { cbn [andb String.eqb].
      destruct (Py.int (Py.take 2 (String "3" rest))) as [n|] eqn:Hint.
      - destruct (Hsome n eq_refl) as [found ->].
        split; [destruct found; discriminate|]. intros (_ & _ & _ & E). discriminate E.
      - rewrite (Hnone eq_refl). cbn [bind].
        split; [intros [= <-]; now repeat split | intros (-> & _); reflexivity]. }
    cbn [andb dict_find String.eqb].
    split; [discriminate|]. intros (_ & _ & E & _). simpl in E. injection E as E. congruence. }
  assert (Hrange : forall (three : dict (list string)),
    (three = [("VIVO", ["30-39"]); ("TIM", ["20-29"]); ("CLARO", ["10-19"])]
     \/ three = [("VIVO", ["32-35"]); ("TIM", ["21-25"]); ("CLARO", ["11-15"])]) ->
    (forall n, Py.int (Py.take 2 raw) = Some n ->
               exists found, scan_operadores raw three = Ok found)
    /\ (Py.int (Py.take 2 raw) = None -> scan_operadores raw three = Raise ValueError)).
  { intros three [-> | ->]; split; intros; cbn [scan_operadores];
      repeat (erewrite scan_prefixos_range by reflexivity);
      repeat match goal with
             | H : Py.int _ = _ |- _ => rewrite H
             end;
      cbn [bind scan_prefixos];
      repeat match goal with
             | |- context [if ?b then _ else _] => destruct b; cbn [bind]
             end; eauto. }
  destruct (String.eqb_spec "11" area) as [<-|H11].
  { match goal with
    | |- context [dict_find [("9", ?nine); ("3", ?three)] _] =>
        pose proof (Hfam _ nine three eq_refl eq_refl
                      (proj1 (Hrange three (or_introl eq_refl)))
                      (proj2 (Hrange three (or_introl eq_refl)))) as HF
    end.
    assert (HC : "11" = "11" \/ "11" = "83") by now left.
    tauto. }
  destruct (String.eqb_spec "83" area) as [<-|H83].
  { match goal with
    | |- context [dict_find [("9", ?nine); ("3", ?three)] _] =>
        pose proof (Hfam _ nine three eq_refl eq_refl
                      (proj1 (Hrange three (or_intror eq_refl)))
                      (proj2 (Hrange three (or_intror eq_refl)))) as HF
    end.
    assert (HC : "83" = "11" \/ "83" = "83") by now right.
    tauto. }
  split; [discriminate|]. intros (_ & _ & [E|E] & _); congruence.
Qed.

Lemma get_operator_by_prefix_raises_iff_witness :
  get_operator_by_prefix "83" "3-21" TIPO_MOVEL = Raise ValueError.
Proof.
  apply (get_operator_by_prefix_raises_iff "83" "3-21" TIPO_MOVEL ValueError).
  repeat split. now right.
Defined.

(** For a mobile raw prefix the static table decides by the area code and
    the digit that follows the leading 9, and never raises. *)
Lemma mobile_carrier_table (area rest : string) (digit : ascii) :
  get_operator_by_prefix area (String "9" (String digit rest)) TIPO_MOVEL =
  Ok (mobile_carrier area digit).
Proof.
  unfold get_operator_by_prefix, mobile_carrier, OPERATOR_PREFIXES.
  cbn [dict_find]. rewrite (String.eqb_sym area "11"), (String.eqb_sym area "83").
  destruct (String.eqb "11" area); [|destruct (String.eqb "83" area); [|reflexivity]];
    destruct rest; destruct digit as [[] [] [] [] [] [] [] []]; vm_compute; reflexivity.
Qed.

(** ** The cache on its own *)

Lemma le_bytes_bound (count : nat) (x : N) :
  length (MD5.le_bytes count x) = count
  /\ Forall (fun b => (b < 256)%N) (MD5.le_bytes count x).
Proof.
  unfold MD5.le_bytes. split.
  - now rewrite length_map, length_seq.
  - apply Forall_map, Forall_forall. intros i _. simpl.
    change 255%N with (N.ones 8). rewrite N.land_ones.
    apply N.mod_lt. discriminate.
Qed.

Lemma digest_bound (msg : list N) :
  length (MD5.digest msg) = 16%nat
  /\ Forall (fun b => (b < 256)%N) (MD5.digest msg).
Proof.
  unfold MD5.digest.
  set (st := fold_left MD5.compress _ MD5.init).
  destruct (le_bytes_bound 4 (MD5.sA st)) as [L1 F1].
  destruct (le_bytes_bound 4 (MD5.sB st)) as [L2 F2].
  destruct (le_bytes_bound 4 (MD5.sC st)) as [L3 F3].
  destruct (le_bytes_bound 4 (MD5.sD st)) as [L4 F4].
  split.
  - rewrite !length_app, L1, L2, L3, L4. reflexivity.
  - repeat apply Forall_app_2; assumption.
Qed.

Lemma hex_digit_is_hex (n : N) :
  (n < 16)%N -> is_hex (MD5.hex_digit n) = true.
Proof.
  intros H. rewrite <- (N2Nat.id n).
  assert (Hm : (N.to_nat n < 16)%nat) by lia.
  remember (N.to_nat n) as m eqn:E. clear E H.
  do 16 (destruct m as [|m]; [reflexivity|]). lia.
Qed.

Lemma hex_of_bytes_shape (bytes : list N) :
  Forall (fun b => (b < 256)%N) bytes ->
  String.length (MD5.hex_of_bytes bytes) = (2 * length bytes)%nat
  /\ forallb is_hex (list_ascii_of_string (MD5.hex_of_bytes bytes)) = true.
Proof.
  induction 1 as [|b bytes Hb _ [IHl IHh]]; [now split|].
  unfold MD5.hex_of_bytes in *. cbn [fold_right String.length list_ascii_of_string forallb length].
  split; [rewrite IHl; lia|].
  rewrite IHh, !hex_digit_is_hex; [reflexivity| |].
  - change 15%N with (N.ones 4). rewrite N.land_ones. apply N.mod_lt. discriminate.
  - rewrite N.shiftr_div_pow2. apply N.Div0.div_lt_upper_bound. exact Hb.
Qed.

(** On a string of code points below 256 the cache key is 32 lower-case
    hexadecimal digits. *)
Lemma get_key_hex_shape (phone : string) :
  String.length (get_key phone) = 32%nat
  /\ forallb is_hex (list_ascii_of_string (get_key phone)) = true.
Proof.
  unfold get_key, MD5.hexdigest.
  destruct (digest_bound (Py.encode phone)) as [L F].
  destruct (hex_of_bytes_shape _ F) as [Hl Hh].
  rewrite Hl, L. now split.
Qed.



(** ** The lookup service on its own *)

Lemma compose_fresh (e : Env) (phone d : string) :
  normalize phone = Some d ->
  mobile_shape d ->
  compose e phone TIPO_MOVEL
    [ ("ddd", substring 0 2 d); ("prefixo", substring 3 4 d);
      ("sufixo", substring 7 4 d); ("raw_prefixo", substring 2 5 d) ]
  = Ok (fresh_info e phone d).
Proof.
  intros Hn [H11 H9].
  pose proof (normalize_shape _ _ Hn) as Hshape.
  destruct (mobile_branch_of_validate d (shape_normalize _ Hshape) (proj1 Hshape) H11 H9)
    as (_ & _ & _ & _ & Hraw).
  unfold compose, fresh_info.
  cbn [dict_item dict_get dict_find String.eqb Ascii.eqb Bool.eqb bind].
  destruct (api_reply e) as [x|]; cbn [bind]; [reflexivity|].
  rewrite (get_operator_by_prefix_digits _ _ TIPO_MOVEL Hraw). reflexivity.
Qed.

Lemma lookup_miss_fresh (e : Env) (phone : string)
  (files files' : gmap string PhoneInfo) :
  load (clock_load e) phone files = (None, files') ->
  accepts phone = true ->
  exists d,
    normalize phone = Some d
    /\ mobile_shape d
    /\ lookup e phone files =
         (Ok (fresh_info e phone d), save phone (fresh_info e phone d) files',
          [ApiRequest phone]).
Proof.
  intros Hl Ha. destruct (validate_accepted phone Ha) as (d & Hn & Hm & _ & Hv).
  exists d. split; [exact Hn|]. split; [exact Hm|].
  unfold lookup. rewrite Hl, Hv. cbn [negb].
  now rewrite (compose_fresh e phone d Hn Hm).
Qed.

(** The three ways a call ends, in short. *)
Lemma lookup_three_outcomes_aux (e : Env) (phone : string)
  (files : gmap string PhoneInfo) :
  (exists data,
      files !! get_key phone = Some data
      /\ lookup e phone files = (Ok data, files, [CacheHit phone]))
  \/ (lookup e phone files =
        (Ok (invalid_info phone), delete (get_key phone) files, [])
      /\ accepts phone = false)
  \/ (exists d,
         normalize phone = Some d /\ mobile_shape d
         /\ lookup e phone files =
              (Ok (fresh_info e phone d),
               <[get_key phone := fresh_info e phone d]> files,
               [ApiRequest phone])).
Proof.
  destruct (load (clock_load e) phone files) as [[data|] files'] eqn:Hl.
  - left. exists data. unfold load in Hl.
    destruct (files !! get_key phone) as [x|] eqn:E; [|discriminate].
    destruct (expired (clock_load e) x) eqn:X; [discriminate|].
    injection Hl as <- <-. split; [reflexivity|].
    apply lookup_hit. now apply (load_fresh _ _ _ x).
  - right. pose proof (load_miss _ _ _ _ Hl) as ->.
    destruct (accepts phone) eqn:Ha.
    + right. destruct (lookup_miss_fresh e phone _ _ Hl Ha) as (d & Hn & Hm & ->).
      exists d. unfold save. now rewrite insert_delete_eq.
    + left. split; [|reflexivity]. now apply lookup_miss_rejected.
Qed.


(** [lookup] reads and writes the file of its own key only: the file of
    every other key is after the call what it was before. *)
Theorem lookup_leaves_other_files (e : Env) (phone k : string)
  (files : gmap string PhoneInfo) :
  k <> get_key phone ->
  (lookup e phone files).1.2 !! k = files !! k.
Proof. apply lookup_frame. Qed.

Lemma lookup_leaves_other_files_witness :
  (lookup (mkEnv 1700086401 None 1700086402) "(11) 98765-4321"
          (<[get_key "83993437321" := stale_example]> ∅)).1.2
    !! get_key "83993437321" = Some stale_example.
Proof.
  rewrite (lookup_leaves_other_files (mkEnv 1700086401 None 1700086402)
             "(11) 98765-4321" (get_key "83993437321")).
  - apply lookup_insert_eq.
  - vm_compute. intros Hx. discriminate Hx.
Defined.

Lemma fresh_info_well_formed (e : Env) (phone d : string) :
  normalize phone = Some d -> mobile_shape d -> well_formed (fresh_info e phone d).
Proof.
  intros Hn Hm. exists d. split; [exact Hn|]. split; [exact Hm|]. now repeat split.
Qed.



(** A record that a call computed, and nothing else, goes with the trace
    [[ApiRequest phone]]. *)
Lemma lookup_computed_fresh (e : Env) (phone : string)
  (files files' : gmap string PhoneInfo) (r : PhoneInfo) :
  lookup e phone files = (Ok r, files', [ApiRequest phone]) ->
  exists d, normalize phone = Some d /\ mobile_shape d /\ r = fresh_info e phone d.
Proof.
  destruct (lookup_three_outcomes_aux e phone files)
    as [(data & _ & ->)|[[-> _]|(d & Hn & Hm & ->)]]; try discriminate.
  intros [= <- _]. eauto.
Qed.

(** When the portability service answers, the record takes carrier, city,
    state and portability from the answer as they are, and the static
    tables are not consulted; area code, prefix and suffix still come from
    the number. *)
Theorem lookup_prefers_api_reply (e : Env) (phone : string)
  (files files' : gmap string PhoneInfo) (r : PhoneInfo) (a : ApiData) :
  api_reply e = Some a ->
  lookup e phone files = (Ok r, files', [ApiRequest phone]) ->
  operadora r = api_operadora a
  /\ cidade r = api_cidade a
  /\ uf r = api_uf a
  /\ portabilidade r = api_portabilidade a
  /\ numero r = phone
  /\ well_formed r.
Proof.
  intros Ha Hl. destruct (lookup_computed_fresh _ _ _ _ _ Hl) as (d & Hn & Hm & ->).
  unfold fresh_info at 1 2 3 4 5. cbn [operadora cidade uf portabilidade numero].
  rewrite Ha. repeat split. now apply fresh_info_well_formed.
Qed.

Lemma lookup_prefers_api_reply_witness :
  exists r files',
    lookup (mkEnv 1700000000 (Some (mkApiData "ALGAR" "Recife" "PE" true)) 1700000001)
           "83993437321" ∅ = (Ok r, files', [ApiRequest "83993437321"])
    /\ operadora r = "ALGAR" /\ cidade r = "Recife" /\ uf r = "PE"
    /\ portabilidade r = true /\ ddd r = "83".
Proof.
  assert (A : ∅ !! get_key "83993437321" = (None : option PhoneInfo))
    by apply lookup_empty.
  destruct (lookup_miss_accepted
              (mkEnv 1700000000 (Some (mkApiData "ALGAR" "Recife" "PE" true)) 1700000001)
              "83993437321" ∅ ∅ (load_absent _ _ _ A) eq_refl) as (r & Hl & _).
  exists r, (save "83993437321" r ∅). split; [exact Hl|].
  destruct (lookup_prefers_api_reply
              (mkEnv 1700000000 (Some (mkApiData "ALGAR" "Recife" "PE" true)) 1700000001)
              _ _ _ _ (mkApiData "ALGAR" "Recife" "PE" true) eq_refl Hl)
    as (H1 & H2 & H3 & H4 & H5 & (d & Hn & _ & _ & _ & Hd & _)).
  rewrite H5 in Hn. injection Hn as <-. now repeat split.
Defined.

Lemma dict_find_In {V : Type} (d : dict V) (k : string) (v : V) :
  dict_find d k = Some v -> In (k, v) d.
Proof.
  induction d as [|[k' v'] d IH]; simpl; [discriminate|].
  destruct (String.eqb_spec k' k) as [->|_].
  - intros [= ->]. now left.
  - intros H. right. now apply IH.
Qed.

Lemma dict_find_None {V : Type} (d : dict V) (k : string) :
  dict_find d k = None -> ~ In k (map fst d).
Proof.
  induction d as [|[k' v'] d IH]; simpl; [tauto|].
  destruct (String.eqb_spec k' k) as [->|Hne]; [discriminate|].
  intros H [E|Hin]; [congruence | now apply IH].
Qed.

(** Every label of the area-code table is a city, a slash and the state
    of the same entry. *)
Lemma DDD_DATABASE_labels (area : string) (entry : DddInfo) :
  dict_find DDD_DATABASE area = Some entry ->
  hd EmptyString (Py.split "/" (regiao entry)) +:+ "/" +:+ estado entry = regiao entry.
Proof.
  intros H%dict_find_In.
  assert (Hall : forallb
            (fun item : string * DddInfo =>
               String.eqb (hd EmptyString (Py.split "/" (regiao (snd item)))
                           +:+ "/" +:+ estado (snd item))
                          (regiao (snd item)))
            DDD_DATABASE = true) by (vm_compute; reflexivity).
  rewrite forallb_forall in Hall. apply String.eqb_eq, (Hall _ H).
Qed.

Lemma resolve_unknown_area (area raw tipo0 : string) :
  dict_find DDD_DATABASE area = None -> resolve area raw tipo0 = DESCONHECIDA.
Proof.
  intros H%dict_find_None. unfold resolve.
  destruct (decide (tipo0 = TIPO_MOVEL)); [|reflexivity].
  unfold RULES. cbn [dict_find].
  destruct (String.eqb_spec "11" area) as [<-|_].
  { exfalso. apply H. vm_compute. tauto. }
  destruct (String.eqb_spec "83" area) as [<-|_]; [|reflexivity].
  exfalso. apply H. vm_compute. tauto.
Qed.

(** When the portability service gives nothing, the record falls back on
    the static tables: [portabilidade] is false; for an area code of the
    table the state is the entry's and city and state together spell the
    entry's label; for any other area code the state is "??" and city and
    carrier are "Desconhecida". *)
Theorem lookup_region_fallback (e : Env) (phone : string)
  (files files' : gmap string PhoneInfo) (r : PhoneInfo) :
  api_reply e = None ->
  lookup e phone files = (Ok r, files', [ApiRequest phone]) ->
  portabilidade r = false
  /\ match dict_find DDD_DATABASE (ddd r) with
     | Some entry =>
         uf r = estado entry /\ cidade r +:+ "/" +:+ uf r = regiao entry
     | None =>
         uf r = "??" /\ cidade r = DESCONHECIDA /\ operadora r = DESCONHECIDA
     end.
Proof.
  intros Ha Hl. destruct (lookup_computed_fresh _ _ _ _ _ Hl) as (d & Hn & Hm & ->).
  unfold fresh_info. cbn [portabilidade ddd uf cidade operadora]. rewrite Ha.
  split; [reflexivity|]. unfold dict_get.
  destruct (dict_find DDD_DATABASE (substring 0 2 d)) as [entry|] eqn:E.
  - split; [reflexivity|]. now apply (DDD_DATABASE_labels (substring 0 2 d)).
  - cbn [estado regiao]. repeat split. now apply resolve_unknown_area.
Qed.

Lemma lookup_region_fallback_witness :
  exists r1 files1 r2 files2,
    lookup (mkEnv 1700000000 None 1700000001) "83993437321" ∅ =
      (Ok r1, files1, [ApiRequest "83993437321"])
    /\ cidade r1 +:+ "/" +:+ uf r1 = Py.latin1 "João Pessoa/PB"
    /\ lookup (mkEnv 1700000000 None 1700000001) "20912345678" ∅ =
         (Ok r2, files2, [ApiRequest "20912345678"])
    /\ uf r2 = "??" /\ cidade r2 = DESCONHECIDA /\ operadora r2 = DESCONHECIDA.
Proof.
  assert (A : forall p, ∅ !! get_key p = (None : option PhoneInfo))
    by (intros p; apply lookup_empty).
  destruct (lookup_miss_fresh (mkEnv 1700000000 None 1700000001)
              "83993437321" ∅ ∅ (load_absent _ _ _ (A _)) eq_refl)
    as (d1 & Hn1 & _ & Hl1).
  destruct (lookup_miss_fresh (mkEnv 1700000000 None 1700000001)
              "20912345678" ∅ ∅ (load_absent _ _ _ (A _)) eq_refl)
    as (d2 & Hn2 & _ & Hl2).
  injection Hn1 as <-. injection Hn2 as <-.
  eexists _, _, _, _. split; [exact Hl1|].
  split; [exact (proj2 (proj2 (lookup_region_fallback
                                 (mkEnv 1700000000 None 1700000001)
                                 _ _ _ _ eq_refl Hl1)))|].
  split; [exact Hl2|].
  exact (proj2 (lookup_region_fallback (mkEnv 1700000000 None 1700000001)
                  _ _ _ _ eq_refl Hl2)).
Defined.

(** Without an answer of the portability service the carrier of a record
    is read off the area code and the digit after the leading 9 of the
    number: carriers are listed for the area codes 11 and 83 only, and 83
    lists none for the digits 8, 9 and 0. *)
Theorem lookup_static_carrier (e : Env) (phone : string)
  (files files' : gmap string PhoneInfo) (r : PhoneInfo) :
  api_reply e = None ->
  lookup e phone files = (Ok r, files', [ApiRequest phone]) ->
  exists d digit,
    normalize phone = Some d
    /\ String.get 3 d = Some digit
    /\ operadora r = mobile_carrier (ddd r) digit.
Proof.
  intros Ha Hl.
  destruct (lookup_computed_fresh _ _ _ _ _ Hl) as (d & Hn & [H11 H9] & ->).
  pose proof (normalize_shape _ _ Hn) as Hshape.
  destruct (mobile_branch_of_validate d (shape_normalize _ Hshape) (proj1 Hshape) H11 H9)
    as (_ & _ & _ & _ & Hraw).
  pose proof (get_operator_by_prefix_digits (substring 0 2 d) _ TIPO_MOVEL Hraw) as Hres.
  unfold fresh_info. cbn [operadora ddd]. rewrite Ha.
  explode d H11. simpl in H9. injection H9 as ->.
  exists (String c (String c0 (String "9" (String c2 (String c3 (String c4 (String c5
            (String c6 (String c7 (String c8 (String c9 EmptyString))))))))))), c2.
  split; [exact Hn|]. split; [reflexivity|].
  cbn [substring] in Hres |- *.
  rewrite mobile_carrier_table in Hres. now injection Hres.
Qed.

Lemma lookup_static_carrier_witness :
  exists r files',
    lookup (mkEnv 1700000000 None 1700000001) "(11) 99876-5432" ∅ =
      (Ok r, files', [ApiRequest "(11) 99876-5432"])
    /\ operadora r = "VIVO".
Proof.
  assert (A : ∅ !! get_key "(11) 99876-5432" = (None : option PhoneInfo))
    by apply lookup_empty.
  destruct (lookup_miss_fresh (mkEnv 1700000000 None 1700000001)
              "(11) 99876-5432" ∅ ∅ (load_absent _ _ _ A) eq_refl)
    as (d0 & Hn0 & _ & Hl).
  injection Hn0 as <-.
  eexists _, _. split; [exact Hl|].
  destruct (lookup_static_carrier (mkEnv 1700000000 None 1700000001)
              _ _ _ _ eq_refl Hl) as (d & digit & Hn & Hg & ->).
  injection Hn as <-. injection Hg as <-. reflexivity.
Defined.

(** ** [PhoneInfo.formatado] *)

(** The formatted number of a record that [lookup] computed reads back as
    the number itself: normalising ["(dd) 9pppp-ssss"] gives the digits of
    the record's [numero]. *)
Theorem formatado_reads_back (r : PhoneInfo) :
  well_formed r ->
  normalize (formatado r) = normalize (numero r).
Proof.
  intros (d & Hn & [H11 H9] & _ & Ht & Hd & Hp & Hs).
  pose proof (normalize_shape _ _ Hn) as Hshape.
  rewrite Hn, <- (shape_normalize d Hshape).
  assert (Hsub : Py.sub_nondigits (formatado r) = Py.sub_nondigits d).
  { destruct Hshape as (Hall & _).
    unfold formatado. rewrite Ht, String.eqb_refl, Hd, Hp, Hs.
    explode d H11. simpl in H9. injection H9 as ->.
    unfold Py.all_digits in Hall. simpl in Hall. split_digits.
    cbn [substring]. rewrite !sub_nondigits_app.
    change (Py.sub_nondigits "(") with EmptyString.
    change (Py.sub_nondigits ") 9") with "9".
    change (Py.sub_nondigits "-") with EmptyString.
    cbn [Py.sub_nondigits]. repeat use_digit.
    change (Py.isdigit "9") with true. reflexivity. }
  unfold normalize. now rewrite Hsub.
Qed.

Lemma formatado_reads_back_witness :
  formatado stale_example = "(83) 99343-7321"
  /\ normalize (formatado stale_example) = Some "83993437321".
Proof.
  split; [reflexivity|].
  rewrite (formatado_reads_back stale_example); [reflexivity|].
  exists "83993437321". now repeat split.
Defined.


(** ** The HTTP front end *)

Lemma normalize_nonempty (phone d : string) :
  normalize phone = Some d -> d <> EmptyString.
Proof.
  intros H ->. destruct (normalize_shape _ _ H) as (_ & [E|E] & _); discriminate E.
Qed.

Lemma rejected_of_shape (d : string) :
  canonical d -> ~ mobile_shape d -> accepts d = false.
Proof.
  intros Hc Hn. apply not_true_iff_false. intros Ha.
  apply accepts_shape in Ha as (d' & Hd & Hm).
  apply canonical_iff in Hc. congruence.
Qed.

(** [GET /consulta] answers 400 "Número inválido" when the number does
    not normalise, and 400 "Formato não reconhecido" when it normalises
    to digits that are not those of a mobile number (every 10-digit
    number among them) and the cache has no file for them; in both cases
    the cache is left as it is and no outside service is asked. *)
Theorem consultar_telefone_errors (e : Env) (geo_reply : option (Q * Q))
  (numero0 : string) (geo : bool) (files : gmap string PhoneInfo) :
  (normalize numero0 = None ->
   Pad.consultar_telefone e geo_reply numero0 geo files =
     (Pad.HTTPException 400 Pad.NUMERO_INVALIDO, files, []))
  /\ (forall d,
        normalize numero0 = Some d ->
        ~ mobile_shape d ->
        files !! get_key d = None ->
        Pad.consultar_telefone e geo_reply numero0 geo files =
          (Pad.HTTPException 400 FORMATO_NAO_RECONHECIDO, files, [])).
Proof.
  unfold Pad.consultar_telefone. split.
  - now intros ->.
  - intros d Hn Hm Hf. rewrite Hn.
    destruct d as [|c d]; [now apply normalize_nonempty in Hn|].
    rewrite (lookup_miss_rejected e _ files files); auto using load_absent.
    apply rejected_of_shape; [now exists numero0 | exact Hm].
Qed.

Lemma consultar_telefone_errors_witness :
  Pad.consultar_telefone (mkEnv 1700000000 None 1700000001) None "12345" true ∅ =
    (Pad.HTTPException 400 Pad.NUMERO_INVALIDO, ∅, [])
  /\ Pad.consultar_telefone (mkEnv 1700000000 None 1700000001) None
       "(11) 3456-7890" true ∅ =
       (Pad.HTTPException 400 FORMATO_NAO_RECONHECIDO, ∅, []).
Proof.
  split.
  - exact (proj1 (consultar_telefone_errors (mkEnv 1700000000 None 1700000001) None
                    "12345" true ∅) eq_refl).
  - refine (proj2 (consultar_telefone_errors (mkEnv 1700000000 None 1700000001) None
                     "(11) 3456-7890" true ∅) "1134567890" eq_refl _ (lookup_empty _)).
    intros [H _]. discriminate H.
Defined.





(** The loop of the batch never raises; it appends one record per input
    that normalises, in the order of the inputs. *)
Lemma lote_loop_total (world : nat -> Env) (numeros : list string) :
  forall (i : nat) (files : gmap string PhoneInfo) (acc : list PhoneInfo)
         (trace : list event),
  exists more files' trace',
    Pad.lote_loop world i numeros files acc trace = (Ok (acc ++ more)%list, files', trace')
    /\ length more = length (normalized_of numeros)
    /\ (filed_by_numero files ->
        map (fun r => get_key (numero r)) more = map get_key (normalized_of numeros)).
Proof.
  induction numeros as [|numero0 rest IH]; intros i files acc trace.
  - exists [], files, trace. simpl. rewrite app_nil_r. now repeat split.
  - cbn [Pad.lote_loop normalized_of].
    destruct (normalize numero0) as [d|] eqn:Hn; [|apply IH].
    destruct d as [|c d]; [now apply normalize_nonempty in Hn|].
    set (phone := String c d).
    assert (Hl : exists info files1 tr,
               lookup (world i) phone files = (Ok info, files1, tr)
               /\ (filed_by_numero files ->
                   get_key (numero info) = get_key phone /\ filed_by_numero files1)).
    { destruct (lookup_three_outcomes_aux (world i) phone files)
        as [(data & E & H)|[[H _]|(d' & _ & _ & H)]];
        rewrite H; eexists _, _, _; (split; [reflexivity|]); intros Hinv;
        destruct (lookup_total (world i) phone files Hinv)
          as (info & files1 & tr & H' & Hk & Hinv1);
        rewrite H in H'; injection H' as <- <- <-; now split. }
    destruct Hl as (info & files1 & tr & -> & Hinv).
    destruct (IH (S i) files1 (acc ++ [info])%list (trace ++ tr)%list)
      as (more & files' & trace' & -> & Hlen & Hkeys).
    exists (info :: more), files', trace'.
    rewrite <- app_assoc. split; [reflexivity|].
    split; [simpl; now rewrite Hlen|].
    intros Hf. destruct (Hinv Hf) as [Hk Hf1]. simpl.
    now rewrite Hk, (Hkeys Hf1).
Qed.

(** [POST /consulta/lote] never fails: inputs that do not normalise are
    skipped without a word, every other input gives one record, and
    [total] is the number of inputs that normalise.  Over a cache whose
    files are filed by number, the records come in the order of the
    inputs, each keyed like its normalised number. *)
Theorem consulta_em_lote_total (world : nat -> Env) (numeros : list string)
  (files : gmap string PhoneInfo) :
  exists resultados files' trace,
    Pad.consulta_em_lote world numeros files =
      (Pad.Returned
         {| Pad.lote_total := Z.of_nat (length (normalized_of numeros));
            Pad.lote_resultados := resultados |},
       files', trace)
    /\ length resultados = length (normalized_of numeros)
    /\ (filed_by_numero files ->
        map (fun r => get_key (numero r)) resultados
        = map get_key (normalized_of numeros)).
Proof.
  unfold Pad.consulta_em_lote.
  destruct (lote_loop_total world numeros 0 files [] [])
    as (more & files' & trace' & -> & Hlen & Hkeys).
  exists more, files', trace'. simpl. rewrite Hlen. now repeat split.
Qed.

Lemma consulta_em_lote_total_witness :
  exists resultados files' trace,
    Pad.consulta_em_lote (fun _ => mkEnv 1700000000 None 1700000001)
      ["(83) 99343-7321"; "123"; "(11) 3456-7890"] ∅ =
      (Pad.Returned {| Pad.lote_total := 2; Pad.lote_resultados := resultados |},
       files', trace)
    /\ map (fun r => get_key (numero r)) resultados
       = [get_key "83993437321"; get_key "1134567890"].
Proof.
  destruct (consulta_em_lote_total (fun _ => mkEnv 1700000000 None 1700000001)
              ["(83) 99343-7321"; "123"; "(11) 3456-7890"] ∅)
    as (resultados & files' & trace & H & _ & Hk).
  exists resultados, files', trace. split; [exact H|].
  exact (Hk filed_by_numero_empty).
Defined.

(** ** The batch summary *)

Import ConsoleDisplay.

Lemma count_if_cons {A : Type} (f : A -> bool) (x : A) (l : list A) :
  count_if f (x :: l) = ((if f x then 1 else 0) + count_if f l)%Z.
Proof.
  unfold count_if. simpl.
  assert (G : forall l a, fold_left (fun acc r => if f r then (acc + 1)%Z else acc) l a
                          = (a + fold_left (fun acc r => if f r then (acc + 1)%Z else acc) l 0)%Z).
  { clear. induction l as [|y l IH]; intros a; simpl; [lia|].
    destruct (f y); [rewrite IH, (IH (0 + 1)%Z); lia | apply IH]. }
  destruct (f x); [rewrite G; lia | reflexivity].
Qed.

Lemma count_if_filter {A : Type} (f : A -> bool) (l : list A) :
  count_if f l = Z.of_nat (length (List.filter f l)).
Proof.
  induction l as [|x l IH]; [reflexivity|].
  rewrite count_if_cons, IH. simpl. destruct (f x); simpl length; lia.
Qed.

Lemma dict_find_set {V : Type} (d : dict V) (k k' : string) (v : V) :
  dict_find (dict_set d k v) k' = if String.eqb k k' then Some v else dict_find d k'.
Proof.
  induction d as [|[k0 v0] d IH]; simpl.
  - reflexivity.
  - destruct (String.eqb_spec k0 k) as [->|Hne]; simpl.
    + now destruct (String.eqb k k').
    + destruct (String.eqb_spec k0 k') as [->|_].
      * destruct (String.eqb_spec k k'); [congruence | reflexivity].
      * exact IH.
Qed.

Lemma dict_set_keys {V : Type} (d : dict V) (k : string) (v : V) :
  map fst (dict_set d k v) =
  if existsb (String.eqb k) (map fst d) then map fst d else (map fst d ++ [k])%list.
Proof.
  induction d as [|[k0 v0] d IH]; simpl; [reflexivity|].
  rewrite (String.eqb_sym k k0).
  destruct (String.eqb k0 k); simpl; [reflexivity|].
  rewrite IH. now destruct (existsb (String.eqb k) (map fst d)).
Qed.

Lemma sum_counts_set (d : dict Z) (k : string) :
  sum_counts (dict_set d k (dict_get d k 0 + 1)%Z) = (sum_counts d + 1)%Z.
Proof.
  unfold dict_get. induction d as [|[k0 v0] d IH]; simpl; [reflexivity|].
  destruct (String.eqb k0 k); simpl; [lia|]. rewrite IH. lia.
Qed.

Lemma tally_sum (results : list PhoneInfo) (acc : dict Z) :
  sum_counts (fold_left tally_step results acc)
  = (sum_counts acc + count_if valido results)%Z.
Proof.
  revert acc. induction results as [|r results IH]; intros acc.
  - unfold count_if. simpl. lia.
  - simpl. rewrite IH, count_if_cons. unfold tally_step.
    destruct (valido r); [rewrite sum_counts_set|]; lia.
Qed.

Lemma tally_get (results : list PhoneInfo) (acc : dict Z) (op : string) :
  dict_get (fold_left tally_step results acc) op 0%Z
  = (dict_get acc op 0 + occurrences op results)%Z.
Proof.
  unfold occurrences. revert acc.
  induction results as [|r results IH]; intros acc; [simpl; lia|].
  simpl fold_left. rewrite IH.
  assert (Hs : dict_get (tally_step acc r) op 0%Z
               = (dict_get acc op 0
                  + (if valido r && String.eqb (operadora r) op then 1 else 0))%Z).
  { unfold tally_step. destruct (valido r); cbn [andb]; [|lia].
    unfold dict_get. rewrite dict_find_set.
    destruct (String.eqb_spec (operadora r) op) as [->|_]; simpl; lia. }
  rewrite Hs. simpl List.filter.
  destruct (valido r && String.eqb (operadora r) op); simpl length; lia.
Qed.

Lemma tally_keys (results : list PhoneInfo) (acc : dict Z) :
  NoDup (map fst acc) ->
  NoDup (map fst (fold_left tally_step results acc))
  /\ forall op, In op (map fst (fold_left tally_step results acc)) <->
                In op (map fst acc) \/ (0 < occurrences op results)%Z.
Proof.
  unfold occurrences. revert acc.
  induction results as [|r results IH]; intros acc Hnd.
  - simpl. split; [exact Hnd|]. intros op. split; [tauto|]. intros [H|H]; [exact H|lia].
  - simpl fold_left.
    assert (Hstep : NoDup (map fst (tally_step acc r))
                    /\ forall op, In op (map fst (tally_step acc r)) <->
                                  In op (map fst acc)
                                  \/ (valido r = true /\ operadora r = op)).
    { unfold tally_step. destruct (valido r).
      - rewrite dict_set_keys.
        destruct (existsb (String.eqb (operadora r)) (map fst acc)) eqn:E.
        + split; [exact Hnd|]. intros op. split; [tauto|].
          intros [H|[_ Eop]]; [exact H|]. subst op.
          apply existsb_exists in E as (x & Hx & Ex). apply String.eqb_eq in Ex.
          now subst x.
        + assert (Hnot : ~ In (operadora r) (map fst acc)).
          { intros Hin. apply not_true_iff_false in E. apply E.
            apply existsb_exists. exists (operadora r).
            split; [exact Hin | apply String.eqb_refl]. }
          split.
          * apply NoDup_app. split; [exact Hnd|].
            split; [|apply NoDup_singleton].
            intros x Hx [Ex|[]]%list_elem_of_In. apply Hnot.
            rewrite Ex. now apply list_elem_of_In.
          * intros op. rewrite in_app_iff. simpl. tauto.
      - split; [exact Hnd|]. intros op. split; [tauto|].
        intros [H|[H _]]; [exact H | discriminate H]. }
    destruct Hstep as [Hnd' Hin'].
    destruct (IH _ Hnd') as [IH1 IH2]. split; [exact IH1|].
    intros op. rewrite IH2, Hin'. simpl List.filter.
    destruct (valido r); simpl andb.
    + destruct (String.eqb_spec (operadora r) op) as [E|E]; simpl length.
      * split; [intros _; right; lia | intros _; left; right; now split].
      * split; [intros [[H|[_ H]]|H]; [tauto|contradiction|tauto] | tauto].
    + split; [intros [[H|[H _]]|H]; [tauto|discriminate H|tauto] | tauto].
Qed.

Lemma insert_desc_perm (x : string * Z) (l : list (string * Z)) :
  Permutation (insert_desc x l) (x :: l).
Proof.
  induction l as [|y l IH]; simpl; [reflexivity|].
  destruct (snd y <? snd x)%Z; [reflexivity|].
  rewrite IH. apply perm_swap.
Qed.

Lemma descending_tail (y : string * Z) (l : list (string * Z)) :
  descending (y :: l) -> descending l.
Proof. inversion 1; [constructor | assumption]. Qed.

Lemma descending_below (y : string * Z) (l : list (string * Z)) :
  descending (y :: l) -> forall z, In z l -> (snd z <= snd y)%Z.
Proof.
  revert y. induction l as [|w l IH]; intros y H z Hz; [destruct Hz|].
  inversion H as [| |? ? ? Hle Hrest]; subst.
  destruct Hz as [<-|Hz]; [exact Hle|].
  specialize (IH w Hrest z Hz). lia.
Qed.

Lemma insert_desc_desc (x : string * Z) (l : list (string * Z)) :
  descending l -> descending (insert_desc x l).
Proof.
  induction l as [|y l IH]; intros H; simpl; [constructor|].
  destruct (Z.ltb_spec (snd y) (snd x)) as [Hlt|Hge].
  - constructor; [lia | exact H].
  - specialize (IH (descending_tail _ _ H)).
    destruct l as [|w l]; simpl in *.
    + constructor; [lia | constructor].
    + destruct (Z.ltb_spec (snd w) (snd x)).
      * constructor; [lia | exact IH].
      * constructor; [now inversion H | exact IH].
Qed.

Lemma with_count_above (n : Z) (l : list (string * Z)) (y : string * Z) :
  descending (y :: l) -> (snd y < n)%Z -> with_count n (y :: l) = [].
Proof.
  intros H Hn. unfold with_count.
  assert (Hall : forall z, In z (y :: l) -> (snd z =? n)%Z = false).
  { intros z [<-|Hz]; apply Z.eqb_neq; [lia|].
    pose proof (descending_below _ _ H z Hz). lia. }
  assert (G : forall t : list (string * Z),
             (forall z, In z t -> (snd z =? n)%Z = false) ->
                        List.filter (fun item => (snd item =? n)%Z) t = []).
  { induction t as [|z t IH]; intros Ht; [reflexivity|]. simpl.
    rewrite (Ht z (or_introl eq_refl)). apply IH. intros w Hw. apply Ht. now right. }
  apply G, Hall.
Qed.

(** An item lands behind the items of its own count. *)
Lemma insert_desc_with_count (n : Z) (x : string * Z) (l : list (string * Z)) :
  descending l ->
  with_count n (insert_desc x l) =
  if (snd x =? n)%Z then (with_count n l ++ [x])%list else with_count n l.
Proof.
  induction l as [|y l IH]; intros H; cbn [insert_desc].
  - unfold with_count. simpl. now destruct (snd x =? n)%Z.
  - destruct (Z.ltb_spec (snd y) (snd x)) as [Hlt|Hge].
    + assert (Hx : with_count n (x :: y :: l)
                   = if (snd x =? n)%Z then x :: with_count n (y :: l)
                     else with_count n (y :: l)) by reflexivity.
      rewrite Hx. destruct (Z.eqb_spec (snd x) n) as [E|_]; [|reflexivity].
      rewrite (with_count_above n l y H); [reflexivity | lia].
    + assert (Hy : forall t, with_count n (y :: t)
                             = if (snd y =? n)%Z then y :: with_count n t
                               else with_count n t) by reflexivity.
      rewrite !Hy, (IH (descending_tail _ _ H)).
      destruct (snd y =? n)%Z, (snd x =? n)%Z; reflexivity.
Qed.

Lemma sorted_from (items acc : list (string * Z)) :
  descending acc ->
  descending (fold_left (fun done x => insert_desc x done) items acc)
  /\ Permutation (fold_left (fun done x => insert_desc x done) items acc)
                 (acc ++ items)
  /\ forall n, with_count n (fold_left (fun done x => insert_desc x done) items acc)
               = (with_count n acc ++ with_count n items)%list.
Proof.
  revert acc. induction items as [|x items IH]; intros acc Hacc; simpl.
  - rewrite app_nil_r. split; [exact Hacc|]. split; [reflexivity|].
    intros n. unfold with_count. simpl. now rewrite app_nil_r.
  - destruct (IH _ (insert_desc_desc x acc Hacc)) as (H1 & H2 & H3).
    split; [exact H1|]. split.
    + rewrite H2, insert_desc_perm. apply Permutation_middle.
    + intros n. rewrite H3, (insert_desc_with_count n x acc Hacc).
      unfold with_count at 4. simpl.
      destruct (snd x =? n)%Z; [|reflexivity].
      now rewrite <- app_assoc.
Qed.

Lemma sum_counts_perm (a b : list (string * Z)) :
  Permutation a b -> sum_counts a = sum_counts b.
Proof. induction 1; simpl; lia. Qed.

(** The head count of the printed summary: the total is the number of
    results, valid and invalid add up to it, and the counts of the
    carrier distribution add up to the number of valid results.  Nothing
    is printed for an empty batch. *)
Theorem show_batch_summary_counts (results : list PhoneInfo) :
  (results = [] -> show_batch_summary results = None)
  /\ (results <> [] ->
      exists s,
        show_batch_summary results = Some s
        /\ total s = Z.of_nat (length results)
        /\ (0 <= valid_count s <= total s)%Z
        /\ (valid_count s + invalid_count s = total s)%Z
        /\ sum_counts (distribution s) = valid_count s).
Proof.
  split; [now intros ->|]. intros Hne.
  destruct results as [|r results]; [contradiction|].
  eexists. split; [reflexivity|]. cbn [total valid_count invalid_count distribution].
  set (l := r :: results).
  split; [reflexivity|]. split.
  - rewrite count_if_filter. pose proof (filter_length_le valido l). lia.
  - split; [lia|].
    destruct (sorted_from (tally l) [] desc_nil) as (_ & Hp & _).
    unfold sorted_desc. rewrite (sum_counts_perm _ _ Hp). simpl.
    unfold tally. now rewrite tally_sum.
Qed.

Lemma show_batch_summary_counts_witness :
  exists s,
    show_batch_summary [stale_example; invalid_info "123"; stale_example] = Some s
    /\ total s = 3%Z
    /\ (0 <= valid_count s <= total s)%Z
    /\ (valid_count s + invalid_count s = total s)%Z
    /\ sum_counts (distribution s) = valid_count s.
Proof.
  refine (proj2 (show_batch_summary_counts
                   [stale_example; invalid_info "123"; stale_example]) _).
  discriminate.
Defined.

(** The carrier distribution of the summary: one line per carrier named
    by a valid result, each with the number of valid results that name
    it, the largest number first and equal numbers in the order in which
    the carriers first appear. *)
Theorem show_batch_summary_distribution (results : list PhoneInfo) (s : Summary) :
  show_batch_summary results = Some s ->
  NoDup (map fst (distribution s))
  /\ (forall op n, In (op, n) (distribution s) <->
                   n = occurrences op results /\ (0 < n)%Z)
  /\ descending (distribution s)
  /\ forall n, with_count n (distribution s) = with_count n (tally results).
Proof.
  destruct results as [|r results]; [discriminate|]. intros [= <-].
  cbn [distribution]. set (l := r :: results).
  destruct (sorted_from (tally l) [] desc_nil) as (Hd & Hp & Hw).
  fold (sorted_desc (tally l)) in Hd, Hp, Hw. simpl in Hp.
  destruct (tally_keys l [] (NoDup_nil_2 (A:=string))) as [Hnd Hin]. fold (tally l) in Hnd, Hin.
  split; [now rewrite Hp|]. split; [|split; [exact Hd | exact Hw]].
  intros op n. rewrite Hp. split.
  - intros H. assert (Hk : In op (map fst (tally l))) by (apply in_map_iff; now exists (op, n)).
    apply Hin in Hk as [[]|Hpos].
    assert (Hn : dict_get (tally l) op 0%Z = n).
    { unfold dict_get. clear -H Hnd. induction (tally l) as [|[k v] d IH]; [destruct H|].
      simpl in *. apply NoDup_cons in Hnd as [Hk Hnd].
      destruct H as [[= -> ->]|H].
      - now rewrite String.eqb_refl.
      - destruct (String.eqb_spec k op) as [->|_]; [|now apply IH].
        exfalso. apply Hk. apply list_elem_of_In, in_map_iff. now exists (op, n). }
    unfold tally in Hn. rewrite tally_get in Hn. unfold dict_get in Hn at 1.
    cbn [dict_find] in Hn. split; lia.
  - intros [-> Hpos].
    assert (Hk : In op (map fst (tally l))) by (apply Hin; now right).
    apply in_map_iff in Hk as ([k v] & <- & Hkv). simpl.
    assert (Hn : dict_get (tally l) k 0%Z = v).
    { unfold dict_get. clear -Hkv Hnd. induction (tally l) as [|[k' v'] d IH]; [destruct Hkv|].
      simpl in *. apply NoDup_cons in Hnd as [Hk Hnd].
      destruct Hkv as [[= -> ->]|H].
      - now rewrite String.eqb_refl.
      - destruct (String.eqb_spec k' k) as [->|_]; [|now apply IH].
        exfalso. apply Hk. apply list_elem_of_In, in_map_iff. now exists (k, v). }
    unfold tally in Hn. rewrite tally_get in Hn. unfold dict_get in Hn at 1.
    cbn [dict_find] in Hn.
    replace (occurrences k l) with v by lia. exact Hkv.
Qed.

Lemma show_batch_summary_distribution_witness :
  exists s,
    show_batch_summary
      [stale_example; invalid_info "123"; stale_example] = Some s
    /\ descending (distribution s)
    /\ forall op n, In (op, n) (distribution s) <->
                    n = occurrences op [stale_example; invalid_info "123"; stale_example]
                    /\ (0 < n)%Z.
Proof.
  eexists. split; [reflexivity|].
  destruct (show_batch_summary_distribution
              [stale_example; invalid_info "123"; stale_example] _ eq_refl)
    as (_ & Hin & Hd & _).
  split; [exact Hd | exact Hin].
Defined.




(** ** The carrier chart *)

Lemma collect_fold (resultados : list Gra.result) (acc : list Gra.pyval) :
  fold_left Gra.collect resultados acc
  = (acc ++ map bar_of (List.filter kept resultados))%list.
Proof.
  revert acc. induction resultados as [|r rest IH]; intros acc.
  - simpl. now rewrite app_nil_r.
  - cbn [fold_left List.filter]. rewrite IH.
    destruct r as [d|o]; cbn [Gra.collect kept bar_of].
    + destruct (Gra.truthy (dict_get d "valido" (Gra.PBool true)));
        cbn [negb map]; [now rewrite <- app_assoc|reflexivity].
    + destruct (valido o); cbn [negb map]; [now rewrite <- app_assoc|reflexivity].
Qed.

Lemma counter_add_sum (c : list (Gra.pyval * Z)) (k : Gra.pyval) :
  fold_right Z.add 0%Z (map snd (Gra.counter_add c k))
  = (fold_right Z.add 0%Z (map snd c) + 1)%Z.
Proof.
  induction c as [|[k' n] rest IH]; cbn [Gra.counter_add]; [reflexivity|].
  destruct (Gra.key_eqb k' k); cbn [map fold_right snd]; [lia|].
  rewrite IH. lia.
Qed.

Lemma counter_sum (items : list Gra.pyval) (c : list (Gra.pyval * Z)) :
  fold_right Z.add 0%Z (map snd (fold_left Gra.counter_add items c))
  = (fold_right Z.add 0%Z (map snd c) + Z.of_nat (List.length items))%Z.
Proof.
  revert c. induction items as [|x rest IH]; intros c.
  - simpl. lia.
  - cbn [fold_left List.length]. rewrite IH, counter_add_sum. lia.
Qed.

Lemma counter_add_positive (c : list (Gra.pyval * Z)) (k : Gra.pyval) :
  Forall (fun n => 0 < n)%Z (map snd c) ->
  Forall (fun n => 0 < n)%Z (map snd (Gra.counter_add c k)).
Proof.
  induction c as [|[k' n] rest IH]; cbn [Gra.counter_add]; intros H.
  - repeat constructor.
  - cbn [map snd] in H. inversion H as [|? ? Hn Hrest]; subst.
    destruct (Gra.key_eqb k' k); cbn [map snd]; constructor; auto; lia.
Qed.

Lemma counter_positive (items : list Gra.pyval) (c : list (Gra.pyval * Z)) :
  Forall (fun n => 0 < n)%Z (map snd c) ->
  Forall (fun n => 0 < n)%Z (map snd (fold_left Gra.counter_add items c)).
Proof.
  revert c. induction items as [|x rest IH]; intros c H; [exact H|].
  cbn [fold_left]. apply IH. now apply counter_add_positive.
Qed.

(** The chart is drawn exactly when some result is kept (its [valido]
    true or missing); it then has one height per label, every height is
    positive, and the heights add up to the number of kept results. *)
Theorem grafico_por_operadora_heights (resultados : list Gra.result) :
  match Gra.grafico_por_operadora resultados with
  | None => List.filter kept resultados = []
  | Some (nomes, valores) =>
      List.filter kept resultados <> []
      /\ List.length nomes = List.length valores
      /\ Forall (fun n => 0 < n)%Z valores
      /\ fold_right Z.add 0%Z valores
         = Z.of_nat (List.length (List.filter kept resultados))
  end.
Proof.
  unfold Gra.grafico_por_operadora. rewrite collect_fold. cbn [app].
  destruct (List.filter kept resultados) as [|r rest] eqn:Hk; cbn [map];
    [reflexivity|].
  split; [discriminate|]. split; [now rewrite !length_map|].
  split.
  - apply counter_positive. constructor.
  - unfold Gra.Counter. rewrite counter_sum. cbn [map fold_right List.length].
    now rewrite length_map.
Qed.

Lemma counter_add_lift (acc : dict Z) (k : string) :
  Gra.counter_add (map (fun kv => (Gra.PStr (fst kv), snd kv)) acc) (Gra.PStr k)
  = map (fun kv => (Gra.PStr (fst kv), snd kv))
        (ConsoleDisplay.dict_set acc k (dict_get acc k 0 + 1)%Z).
Proof.
  unfold dict_get.
  induction acc as [|[k' n] rest IH];
    cbn [map Gra.counter_add ConsoleDisplay.dict_set dict_find fst snd Gra.key_eqb];
    [reflexivity|].
  destruct (String.eqb k' k); cbn [map fst snd]; [reflexivity|].
  now rewrite IH.
Qed.

Lemma counter_lift (results : list PhoneInfo) (acc : dict Z) :
  fold_left Gra.counter_add
    (map (fun r => Gra.PStr (operadora r)) (List.filter valido results))
    (map (fun kv => (Gra.PStr (fst kv), snd kv)) acc)
  = map (fun kv => (Gra.PStr (fst kv), snd kv))
        (fold_left ConsoleDisplay.tally_step results acc).
Proof.
  revert acc. induction results as [|r rest IH]; intros acc; [reflexivity|].
  cbn [List.filter fold_left]. unfold ConsoleDisplay.tally_step at 2.
  destruct (valido r); [|apply IH].
  cbn [map fold_left]. rewrite counter_add_lift. apply IH.
Qed.

Lemma kept_records (results : list PhoneInfo) :
  map bar_of (List.filter kept (map Gra.Obj results))
  = map (fun r => Gra.PStr (operadora r)) (List.filter valido results).
Proof.
  induction results as [|r rest IH]; [reflexivity|].
  cbn [map List.filter kept]. destruct (valido r); cbn [map bar_of]; now rewrite IH.
Qed.

Lemma kept_dicts (results : list PhoneInfo) :
  map bar_of (List.filter kept (map (fun r => Gra.Dict (Gra.asdict r)) results))
  = map (fun r => Gra.PStr (operadora r)) (List.filter valido results).
Proof.
  induction results as [|r rest IH]; [reflexivity|].
  cbn [map List.filter]. 
  change (kept (Gra.Dict (Gra.asdict r))) with (valido r).
  destruct (valido r); cbn [map]; rewrite IH; reflexivity.
Qed.

(** The chart counts what the console summary counts: fed the records of
    a batch, or their dictionaries as the HTTP front end returns them, it
    draws one bar per carrier of the summary's distribution, in the order
    of first appearance, with the same counts; nothing is drawn when no
    record is valid. *)
Theorem grafico_por_operadora_agrees_with_summary (results : list PhoneInfo) :
  Gra.grafico_por_operadora (map (fun r => Gra.Dict (Gra.asdict r)) results)
  = Gra.grafico_por_operadora (map Gra.Obj results)
  /\ Gra.grafico_por_operadora (map Gra.Obj results)
     = match ConsoleDisplay.tally results with
       | [] => None
       | carriers =>
           Some (map (fun kv => Gra.PStr (fst kv)) carriers, map snd carriers)
       end.
Proof.
  unfold Gra.grafico_por_operadora. rewrite !collect_fold. cbn [app].
  rewrite kept_dicts, kept_records. split; [reflexivity|].
  pose proof (counter_lift results []) as H. cbn [map] in H.
  fold (Gra.Counter (map (fun r => Gra.PStr (operadora r)) (List.filter valido results))) in H.
  fold (ConsoleDisplay.tally results) in H.
  destruct (List.filter valido results) as [|r rest] eqn:Hv.
  - cbn [map] in *. unfold Gra.Counter in H. cbn [fold_left] in H.
    destruct (ConsoleDisplay.tally results); [reflexivity|discriminate H].
  - cbn [map] in *. rewrite H.
    destruct (ConsoleDisplay.tally results) as [|c cs] eqn:Ht.
    + exfalso.
      pose proof (counter_sum (Gra.PStr (operadora r)
                    :: map (fun r0 => Gra.PStr (operadora r0)) rest) []) as Hs.
      unfold Gra.Counter in H. rewrite H in Hs. cbn in Hs. lia.
    + rewrite !map_map. reflexivity.
Qed.

Lemma counter_same (n : nat) (m : Z) :
  fold_left Gra.counter_add (repeat (Gra.PStr DESCONHECIDA) n)
            [(Gra.PStr DESCONHECIDA, m)]
  = [(Gra.PStr DESCONHECIDA, (m + Z.of_nat n)%Z)].
Proof.
  revert m. induction n as [|n IH]; intros m.
  - cbn [repeat fold_left]. do 2 f_equal. lia.
  - cbn [repeat fold_left Gra.counter_add Gra.key_eqb].
    rewrite String.eqb_refl, IH. do 2 f_equal. lia.
Qed.

(** A dictionary that lacks the key [valido] is counted as a valid
    result, and one that lacks [operadora] is counted under
    "Desconhecida": results that lack both give a single bar of that
    name, as high as there are results. *)
Theorem grafico_por_operadora_missing_keys (resultados : list (dict Gra.pyval)) :
  resultados <> [] ->
  Forall (fun d => dict_find d "valido" = None /\ dict_find d "operadora" = None)
         resultados ->
  Gra.grafico_por_operadora (map Gra.Dict resultados)
  = Some ([Gra.PStr DESCONHECIDA], [Z.of_nat (List.length resultados)]).
Proof.
  intros Hne Hall. unfold Gra.grafico_por_operadora. rewrite collect_fold. cbn [app].
  assert (E : map bar_of (List.filter kept (map Gra.Dict resultados))
              = repeat (Gra.PStr DESCONHECIDA) (List.length resultados)).
  { clear Hne. induction Hall as [|d rest [Hv Ho] _ IH]; [reflexivity|].
    cbn [map List.filter kept List.length repeat]. unfold dict_get at 1. rewrite Hv.
    cbn [Gra.truthy map bar_of]. unfold dict_get at 1. rewrite Ho. now rewrite IH. }
  rewrite E. destruct resultados as [|d rest]; [contradiction|].
  cbn [List.length repeat]. unfold Gra.Counter.
  cbn [fold_left Gra.counter_add]. rewrite counter_same. cbn [map fst snd].
  do 3 f_equal. lia.
Qed.

Lemma grafico_por_operadora_missing_keys_witness :
  Gra.grafico_por_operadora
    [Gra.Dict []; Gra.Dict [("numero", Gra.PStr "83993437321")]]
  = Some ([Gra.PStr DESCONHECIDA], [2%Z]).
Proof.
  apply (grafico_por_operadora_missing_keys [[]; [("numero", Gra.PStr "83993437321")]]).
  - discriminate.
  - repeat constructor.
Defined.

(** ** The chart endpoint *)

Lemma lote_loop_none (world : nat -> Env) (numeros : list string) :
  normalized_of numeros = [] ->
  forall (i : nat) (files : gmap string PhoneInfo) (acc : list PhoneInfo)
         (trace : list event),
    Pad.lote_loop world i numeros files acc trace = (Ok acc, files, trace).
Proof.
  induction numeros as [|numero0 rest IH]; intros Hn i files acc trace; [reflexivity|].
  cbn [Pad.lote_loop normalized_of] in *.
  destruct (normalize numero0); [discriminate Hn|]. now apply IH.
Qed.

Lemma lote_loop_rejected (world : nat -> Env) (numeros : list string)
  (files : gmap string PhoneInfo) :
  Forall (fun d => ~ mobile_shape d /\ files !! get_key d = None)
         (normalized_of numeros) ->
  forall (i : nat) (acc : list PhoneInfo) (trace : list event),
    Pad.lote_loop world i numeros files acc trace
    = (Ok (acc ++ map invalid_info (normalized_of numeros))%list, files, trace).
Proof.
  induction numeros as [|numero0 rest IH]; intros Hall i acc trace.
  - cbn. now rewrite app_nil_r.
  - cbn [Pad.lote_loop normalized_of] in *.
    destruct (normalize numero0) as [d|] eqn:Hn; [|now apply IH].
    inversion Hall as [|? ? [Hm Hk] Hrest]; subst.
    destruct d as [|c d]; [now apply normalize_nonempty in Hn|].
    rewrite (lookup_miss_rejected (world i) (String c d) files files).
    + rewrite IH by exact Hrest. cbn [map].
      now rewrite <- app_assoc, app_nil_r.
    + now apply load_absent.
    + apply rejected_of_shape; [now exists numero0 | exact Hm].
Qed.

(** [POST /grafico/operadoras] answers 400 "Nenhum número válido", and
    touches nothing, when no number of the batch normalises; otherwise
    it answers "ok" with the number of inputs that normalise as [total]
    and the name of the saved file made from the clock reading. *)
Theorem grafico_operadoras_answer (world : nat -> Env) (now : Q)
  (graph_dir : string) (numeros : list string) (files : gmap string PhoneInfo) :
  match normalized_of numeros with
  | [] =>
      grafico_operadoras world now graph_dir numeros files
      = (Pad.HTTPException 400 NENHUM_NUMERO_VALIDO, None, files, [])
  | _ =>
      exists bars files' trace,
        grafico_operadoras world now graph_dir numeros files
        = (Pad.Returned
             {| status := "ok";
                arquivo := "operadoras_" +:+ str_of_int (int_of_time now) +:+ ".png";
                caminho := graph_dir +:+ "/operadoras_"
                           +:+ str_of_int (int_of_time now) +:+ ".png";
                grafico_total := Z.of_nat (List.length (normalized_of numeros)) |},
           bars, files', trace)
  end.
Proof.
  unfold grafico_operadoras.
  destruct (normalized_of numeros) as [|d ds] eqn:Hn.
  - now rewrite (lote_loop_none world numeros Hn).
  - destruct (lote_loop_total world numeros 0 files [] [])
      as (more & files' & trace' & -> & Hlen & _).
    rewrite Hn in Hlen. cbn [app].
    destruct more as [|r more]; [discriminate Hlen|].
    eexists _, files', trace'. rewrite Hlen. reflexivity.
Qed.

Lemma no_valid_rejected (ds : list string) :
  List.filter valido (map invalid_info ds) = [].
Proof. induction ds as [|d ds IH]; [reflexivity|exact IH]. Qed.

(** A batch whose numbers normalise but are never mobile numbers (every
    landline is one), none of them with a cache file, is answered "ok"
    with its size as [total] although [grafico_por_operadora] returned
    before drawing anything; the cache is left as it was and no request
    was made. *)
Theorem grafico_operadoras_nothing_drawn (world : nat -> Env) (now : Q)
  (graph_dir : string) (numeros : list string) (files : gmap string PhoneInfo) :
  normalized_of numeros <> [] ->
  Forall (fun d => ~ mobile_shape d /\ files !! get_key d = None)
         (normalized_of numeros) ->
  grafico_operadoras world now graph_dir numeros files
  = (Pad.Returned
       {| status := "ok";
          arquivo := "operadoras_" +:+ str_of_int (int_of_time now) +:+ ".png";
          caminho := graph_dir +:+ "/operadoras_"
                     +:+ str_of_int (int_of_time now) +:+ ".png";
          grafico_total := Z.of_nat (List.length (normalized_of numeros)) |},
     None, files, []).
Proof.
  intros Hne Hall. unfold grafico_operadoras.
  rewrite (lote_loop_rejected world numeros files Hall). cbn [app].
  destruct (normalized_of numeros) as [|d ds]; [contradiction|].
  cbn [map].
  change (invalid_info d :: map invalid_info ds) with (map invalid_info (d :: ds)).
  assert (Hbars : Gra.grafico_por_operadora
                    (map (fun r => Gra.Dict (Gra.asdict r))
                         (map invalid_info (d :: ds))) = None).
  { unfold Gra.grafico_por_operadora. rewrite collect_fold, kept_dicts.
    now rewrite no_valid_rejected. }
  cbn [map] in Hbars. rewrite Hbars, length_map. reflexivity.
Qed.

Lemma grafico_operadoras_nothing_drawn_witness :
  grafico_operadoras (fun _ => mkEnv 1700000000 None 1700000001) 1700000002
    "graficos" ["(11) 3456-7890"; "abc"; "0 83 3343-7321"] ∅
  = (Pad.Returned
       {| status := "ok";
          arquivo := "operadoras_1700000002.png";
          caminho := "graficos/operadoras_1700000002.png";
          grafico_total := 2 |},
     None, ∅, []).
Proof.
  apply (grafico_operadoras_nothing_drawn
           (fun _ => mkEnv 1700000000 None 1700000001) 1700000002
           "graficos" ["(11) 3456-7890"; "abc"; "0 83 3343-7321"] ∅).
  - discriminate.
  - repeat constructor; try apply lookup_empty;
      intros [H _]; discriminate H.
Defined.

(** * The program on a [str] that may hold surrogates *)

(** ** [Str] against the functions on strings of code points below 256 *)


Lemma narrow_surrogate (phone : Str.t) :
  Str.narrow phone = None <-> holds_surrogate phone = true.
Proof.
  unfold holds_surrogate.
  induction phone as [|[c|code] rest IH]; cbn [Str.narrow existsb orb].
  - split; discriminate.
  - destruct (Str.narrow rest); [|tauto].
    split; [discriminate|]. intros H. apply IH in H. discriminate H.
  - tauto.
Qed.

Lemma narrow_some (phone : Str.t) :
  holds_surrogate phone = false -> exists s, Str.narrow phone = Some s.
Proof.
  intros H. destruct (Str.narrow phone) as [s|] eqn:E; [now exists s|].
  apply narrow_surrogate in E. congruence.
Qed.

Lemma encode_narrow (phone : Str.t) (s : string) :
  Str.narrow phone = Some s -> Str.encode phone = Ok (Py.encode s).
Proof.
  revert s. induction phone as [|[c|code] rest IH]; intros s; cbn [Str.narrow].
  - now intros [= <-].
  - destruct (Str.narrow rest) as [r|]; [|discriminate]. intros [= <-].
    cbn [Str.encode Py.encode]. rewrite (IH r eq_refl). cbn [bind].
    now destruct (N_of_ascii c <? 128)%N.
  - discriminate.
Qed.

Lemma encode_surrogate (phone : Str.t) :
  Str.narrow phone = None -> Str.encode phone = Raise UnicodeEncodeError.
Proof.
  induction phone as [|[c|code] rest IH]; cbn [Str.narrow Str.encode].
  - discriminate.
  - destruct (Str.narrow rest); [discriminate|]. intros _. now rewrite IH.
  - reflexivity.
Qed.

Lemma get_key_narrow (phone : Str.t) (s : string) :
  Str.narrow phone = Some s -> Str.get_key phone = Ok (get_key s).
Proof. intros H. unfold Str.get_key. now rewrite (encode_narrow _ _ H). Qed.

Lemma get_key_surrogate (phone : Str.t) :
  Str.narrow phone = None -> Str.get_key phone = Raise UnicodeEncodeError.
Proof. intros H. unfold Str.get_key. now rewrite (encode_surrogate _ H). Qed.

Lemma get_key_inv (phone : Str.t) (k : string) :
  Str.get_key phone = Ok k ->
  exists s, Str.narrow phone = Some s /\ k = get_key s.
Proof.
  intros H. destruct (Str.narrow phone) as [s|] eqn:E.
  - exists s. split; [reflexivity|]. rewrite (get_key_narrow _ _ E) in H. congruence.
  - rewrite (get_key_surrogate _ E) in H. discriminate H.
Qed.

Lemma sub_nondigits_narrow (phone : Str.t) (s : string) :
  Str.narrow phone = Some s -> Str.sub_nondigits phone = Py.sub_nondigits s.
Proof.
  revert s. induction phone as [|[c|code] rest IH]; intros s; cbn [Str.narrow].
  - now intros [= <-].
  - destruct (Str.narrow rest) as [r|]; [|discriminate]. intros [= <-].
    cbn [Str.sub_nondigits Py.sub_nondigits]. now rewrite (IH r eq_refl).
  - discriminate.
Qed.

Lemma normalize_narrow (phone : Str.t) (s : string) :
  Str.narrow phone = Some s -> Str.normalize phone = normalize s.
Proof.
  intros H. unfold Str.normalize, normalize. now rewrite (sub_nondigits_narrow _ _ H).
Qed.

Lemma validate_narrow (phone : Str.t) (s : string) :
  Str.narrow phone = Some s -> Str.validate phone = validate s.
Proof.
  intros H. unfold Str.validate, validate. now rewrite (normalize_narrow _ _ H).
Qed.

Lemma load_narrow (now : Q) (phone : Str.t) (s : string)
  (files : gmap string PhoneInfo) :
  Str.narrow phone = Some s ->
  Str.load now phone files = (Ok (load now s files).1, (load now s files).2).
Proof.
  intros H. unfold Str.load, load. rewrite (get_key_narrow _ _ H).
  destruct (files !! get_key s) as [data|]; [|reflexivity].
  now destruct (expired now data).
Qed.

Lemma save_narrow (phone : Str.t) (s : string) (data : PhoneInfo)
  (files : gmap string PhoneInfo) :
  Str.narrow phone = Some s ->
  Str.save phone data files = (Ok tt, save s data files).
Proof. intros H. unfold Str.save, save. now rewrite (get_key_narrow _ _ H). Qed.

(** On a [str] that holds no surrogate, [Str.lookup] is [lookup] on its
    string. *)
Lemma lookup_narrow (e : Env) (phone : Str.t) (s : string)
  (files : gmap string PhoneInfo) :
  Str.narrow phone = Some s ->
  Str.lookup e phone files = lookup e s files.
Proof.
  intros H. unfold Str.lookup, lookup, Str.text.
  rewrite (load_narrow _ _ _ _ H), (validate_narrow _ _ H), H.
  destruct (load (clock_load e) s files) as [[data|] files1]; cbn [fst snd];
    [reflexivity|].
  destruct (validate s) as [[ok t0] partes].
  destruct (negb ok); [reflexivity|].
  destruct (compose e s t0 partes) as [info|x]; [|reflexivity].
  now rewrite (save_narrow _ _ _ _ H).
Qed.

(** On a [str] that holds a surrogate, [lookup] raises at once. *)
Lemma lookup_surrogate (e : Env) (phone : Str.t) (files : gmap string PhoneInfo) :
  Str.narrow phone = None ->
  Str.lookup e phone files = (Raise UnicodeEncodeError, files, []).
Proof.
  intros H. unfold Str.lookup, Str.load. now rewrite (get_key_surrogate _ H).
Qed.


Lemma accepts_narrow (phone : Str.t) (s : string) :
  Str.narrow phone = Some s -> accepts_str phone = accepts s.
Proof. intros H. unfold accepts_str, accepts. now rewrite (validate_narrow _ _ H). Qed.

(** ** The cache key *)

(** [get_key] raises [UnicodeEncodeError] exactly on a [str] that holds
    a surrogate; on every other [str] the key is 32 lower-case
    hexadecimal digits, so that the name of the cache file holds no
    separator and no dot of the caller's making. *)
Theorem get_key_is_hex_name (phone : Str.t) :
  (holds_surrogate phone = true
   /\ Str.get_key phone = Raise UnicodeEncodeError)
  \/ (holds_surrogate phone = false
      /\ exists k,
           Str.get_key phone = Ok k
           /\ String.length k = 32%nat
           /\ forallb is_hex (list_ascii_of_string k) = true).
Proof.
  destruct (Str.narrow phone) as [s|] eqn:E.
  - right. split.
    + apply not_true_iff_false. intros H. apply narrow_surrogate in H. congruence.
    + exists (get_key s). split; [now apply get_key_narrow|]. apply get_key_hex_shape.
  - left. split; [now apply narrow_surrogate | now apply get_key_surrogate].
Qed.

(** ** The outcomes of a call *)


(** ** Rejected inputs *)

(** C4. For an input that validation rejects, [lookup] does one of two
    things.  On a [str] that holds a surrogate it raises
    [UnicodeEncodeError]; the cache is left as it was.  On any other
    [str], with no file in the cache for it, it raises nothing and
    returns a record with [valido = false], the invalid kind and empty
    area code, prefix and suffix; the cache after the call is the cache
    before it. *)
Theorem lookup_rejected_outcome (e : Env) (phone : Str.t)
  (files : gmap string PhoneInfo) :
  accepts_str phone = false ->
  (holds_surrogate phone = true
   /\ Str.lookup e phone files = (Raise UnicodeEncodeError, files, []))
  \/ (exists s k,
        Str.narrow phone = Some s
        /\ Str.get_key phone = Ok k
        /\ (files !! k = None ->
            exists info,
              Str.lookup e phone files = (Ok info, files, [])
              /\ valido info = false
              /\ tipo info = TIPO_INVALIDO
              /\ ddd info = EmptyString
              /\ prefixo info = EmptyString
              /\ sufixo info = EmptyString
              /\ numero info = s)).
Proof.
  intros Ha. destruct (Str.narrow phone) as [s|] eqn:E.
  - right. exists s, (get_key s). split; [reflexivity|].
    split; [now apply get_key_narrow|]. intros Hnone.
    rewrite (lookup_narrow _ _ _ _ E). apply lookup_rejected_atomic; [|exact Hnone].
    now rewrite <- (accepts_narrow _ _ E).
  - left. split; [now apply narrow_surrogate | now apply lookup_surrogate].
Qed.

(** The argument ['\udcff'], which [sys.argv] holds for the byte 0xFF, is
    rejected by validation and makes [lookup] raise; ["123"] is rejected
    and gives the invalid record. *)
Lemma lookup_rejected_outcome_witness :
  accepts_str [Str.Surrogate 0xDCFF] = false
  /\ Str.lookup (mkEnv 1700000000 None 1700000001) [Str.Surrogate 0xDCFF] ∅
     = (Raise UnicodeEncodeError, ∅, [])
  /\ exists info,
       Str.lookup (mkEnv 1700000000 None 1700000001) (Str.of_string "123") ∅
       = (Ok info, ∅, [])
       /\ valido info = false
       /\ tipo info = TIPO_INVALIDO
       /\ ddd info = EmptyString
       /\ prefixo info = EmptyString
       /\ sufixo info = EmptyString
       /\ numero info = "123".
Proof.
  split; [reflexivity|]. split.
  - destruct (lookup_rejected_outcome (mkEnv 1700000000 None 1700000001)
                [Str.Surrogate 0xDCFF] ∅ eq_refl) as [[_ H]|(s & k & Hs & _)].
    + exact H.
    + discriminate Hs.
  - destruct (lookup_rejected_outcome (mkEnv 1700000000 None 1700000001)
                (Str.of_string "123") ∅ eq_refl) as [[Hs _]|(s & k & Hs & _ & H)].
    + discriminate Hs.
    + injection Hs as <-.
      exact (H (lookup_empty _)).
Defined.

(** ** Two spellings of one number *)



